(** * QuickJS value representation (quickjs.h): tags, the three JSValue
    layouts and the inline constructors and classifiers built on them.

    C integers are modelled as [Z] with the conversions between widths
    written out; a [double] is modelled by its IEEE-754 binary64 bit
    pattern (the header itself only looks at doubles through a
    [union { double d; uint64_t u64; }]). *)

From Stdlib Require Import ZArith Lia Bool List.
From Stdlib Require Import Floats.SpecFloat.
Import ListNotations.

Local Open Scope Z_scope.

(** ** C integer conversions *)

Definition INT32_MIN : Z := - 2 ^ 31.
Definition INT32_MAX : Z := 2 ^ 31 - 1.
Definition INT64_MIN : Z := - 2 ^ 63.
Definition INT64_MAX : Z := 2 ^ 63 - 1.
Definition UINT32_MAX : Z := 2 ^ 32 - 1.

(** [(uint32_t)z], [(uint64_t)z]: reduction modulo the width. *)
Definition to_uint32 (z : Z) : Z := z mod 2 ^ 32.
Definition to_uint64 (z : Z) : Z := z mod 2 ^ 64.

(** [(int32_t)z], [(int64_t)z]: two's complement wrap-around. *)
Definition to_int32 (z : Z) : Z := (z + 2 ^ 31) mod 2 ^ 32 - 2 ^ 31.
Definition to_int64 (z : Z) : Z := (z + 2 ^ 63) mod 2 ^ 64 - 2 ^ 63.

Definition is_int32 (z : Z) : Prop := INT32_MIN <= z <= INT32_MAX.
Definition is_int64 (z : Z) : Prop := INT64_MIN <= z <= INT64_MAX.
Definition is_uint32 (z : Z) : Prop := 0 <= z <= UINT32_MAX.
Definition is_uint64 (z : Z) : Prop := 0 <= z < 2 ^ 64.

(** ** The tag enumeration *)

Definition JS_TAG_FIRST : Z := -9.
Definition JS_TAG_BIG_INT : Z := -9.
Definition JS_TAG_SYMBOL : Z := -8.
Definition JS_TAG_STRING : Z := -7.
Definition JS_TAG_MODULE : Z := -3.
Definition JS_TAG_FUNCTION_BYTECODE : Z := -2.
Definition JS_TAG_OBJECT : Z := -1.
Definition JS_TAG_INT : Z := 0.
Definition JS_TAG_BOOL : Z := 1.
Definition JS_TAG_NULL : Z := 2.
Definition JS_TAG_UNDEFINED : Z := 3.
Definition JS_TAG_UNINITIALIZED : Z := 4.
Definition JS_TAG_CATCH_OFFSET : Z := 5.
Definition JS_TAG_EXCEPTION : Z := 6.
Definition JS_TAG_SHORT_BIG_INT : Z := 7.
Definition JS_TAG_FLOAT64 : Z := 8.

(** The six tags whose values carry a reference count. *)
Definition ref_counted_tags : list Z :=
  [JS_TAG_BIG_INT; JS_TAG_SYMBOL; JS_TAG_STRING; JS_TAG_MODULE;
   JS_TAG_FUNCTION_BYTECODE; JS_TAG_OBJECT].

(** The inline tags other than float64. *)
Definition inline_non_float_tags : list Z :=
  [JS_TAG_INT; JS_TAG_BOOL; JS_TAG_NULL; JS_TAG_UNDEFINED;
   JS_TAG_UNINITIALIZED; JS_TAG_CATCH_OFFSET; JS_TAG_EXCEPTION;
   JS_TAG_SHORT_BIG_INT].

Definition non_float_tags : list Z := ref_counted_tags ++ inline_non_float_tags.

Definition inline_tags : list Z := inline_non_float_tags ++ [JS_TAG_FLOAT64].

(** Every enumerator of the [enum]. *)
Definition enumerated_tags : list Z := ref_counted_tags ++ inline_tags.

(** ** Doubles as binary64 bit patterns *)

Definition double : Type := Z.

Definition is_double (d : double) : Prop := 0 <= d < 2 ^ 64.

Definition double_sign (d : double) : Z := d / 2 ^ 63.
Definition double_exponent (d : double) : Z := (d / 2 ^ 52) mod 2 ^ 11.
Definition double_fraction (d : double) : Z := d mod 2 ^ 52.

(** IEEE-754: a NaN has every exponent bit set and a non-zero fraction. *)
Definition double_is_nan (d : double) : bool :=
  (double_exponent d =? 2047) && negb (double_fraction d =? 0).

(** The test the header applies to the bits of a double:
    [(u.u64 & 0x7fffffffffffffff) > 0x7ff0000000000000]. *)
Definition u64_is_nan (u64 : Z) : bool :=
  Z.land u64 0x7fffffffffffffff >? 0x7ff0000000000000.

(** The quiet NaN with a zero payload, [0x7ff8000000000000]. *)
Definition canonical_nan : double := 0x7ff8000000000000.

(** The decoding of a bit pattern as a [spec_float], used to relate the
    integer-to-double conversion below to the library's rounding. *)
Definition double_to_SF (d : double) : spec_float :=
  let s := negb (double_sign d =? 0) in
  let e := double_exponent d in
  let f := double_fraction d in
  if e =? 0 then
    match f with
    | Zpos m => S754_finite s m (-1074)
    | _ => S754_zero s
    end
  else if e =? 2047 then
    if f =? 0 then S754_infinity s else S754_nan
  else
    match f + 2 ^ 52 with
    | Zpos m => S754_finite s m (e - 1075)
    | _ => S754_nan
    end.

(** [(double)v] for an integer [v] with [|v| < 2^64]: the nearest binary64,
    ties to even (the conversion of C under the default rounding mode). *)
Definition double_of_Z (v : Z) : double :=
  let s := if v <? 0 then 1 else 0 in
  let m := Z.abs v in
  if m =? 0 then 0
  else
    let e := Z.log2 m in
    if e <=? 52 then
      s * 2 ^ 63 + (e + 1023) * 2 ^ 52 + (m * 2 ^ (52 - e) - 2 ^ 52)
    else
      let sh := e - 52 in
      let q := m / 2 ^ sh in
      let r := m mod 2 ^ sh in
      let half := 2 ^ (sh - 1) in
      let q' := if (half <? r) || ((r =? half) && Z.odd q) then q + 1 else q in
      (* a carry out of the 53-bit significand moves into the exponent
         field, which is what the addition below does *)
      s * 2 ^ 63 + (e + 1023) * 2 ^ 52 + (q' - 2 ^ 52).

(** [JSContext *]: an opaque pointer, never dereferenced by the code below. *)
Definition JSContext : Type := Z.

(** [(int)d] for a double [d]: the value truncated toward zero.  The
    conversion is undefined in C when the truncated value does not fit an
    [int], and for infinities and NaNs: [None]. *)
Definition int_of_double (d : double) : option Z :=
  let e := double_exponent d in
  let f := double_fraction d in
  if e =? 2047 then None
  else
    let magnitude :=
      if e <? 1023 then 0
      else if 1075 <=? e then (2 ^ 52 + f) * 2 ^ (e - 1075)
      else (2 ^ 52 + f) / 2 ^ (1075 - e) in
    let v := if double_sign d =? 0 then magnitude else - magnitude in
    if (INT32_MIN <=? v) && (v <=? INT32_MAX) then Some v else None.

(** Integers on which the conversion is compared with the library's
    rounding: exact values, both signs, ties and carries into the exponent. *)
Definition conversion_samples : list Z :=
  [0; 1; -1; 3; 2 ^ 31; - 2 ^ 31 - 1; 2 ^ 32 - 1; 2 ^ 53 - 1; 2 ^ 53;
   2 ^ 53 + 1; 2 ^ 53 + 2; 2 ^ 53 + 3; - (2 ^ 54 + 2); - (2 ^ 54 + 6);
   2 ^ 54 - 1; 2 ^ 62 + 2 ^ 9; 2 ^ 62 + 2 ^ 9 + 1; 2 ^ 63 - 1; - 2 ^ 63;
   2 ^ 63 - 2 ^ 9; 2 ^ 63 - 2 ^ 10; 2 ^ 64 - 1].

(** ** NaN-boxed layout ([JS_NAN_BOXING]) *)

Module NanBoxing.

(** [typedef uint64_t JSValue;] *)
Definition JSValue : Type := Z.

Definition JS_VALUE_GET_TAG (v : JSValue) : Z := to_int32 (Z.shiftr v 32).
Definition JS_VALUE_GET_INT (v : JSValue) : Z := to_int32 v.
Definition JS_VALUE_GET_BOOL (v : JSValue) : Z := to_int32 v.
Definition JS_VALUE_GET_SHORT_BIG_INT (v : JSValue) : Z := to_int32 v.

Definition JS_MKVAL (tag val : Z) : JSValue :=
  Z.lor (to_uint64 (Z.shiftl (to_uint64 tag) 32)) (to_uint32 val).
(** [(uintptr_t)(ptr)] is widened to [uint64_t] for the [|]. *)
Definition JS_MKPTR (tag ptr : Z) : JSValue :=
  Z.lor (to_uint64 (Z.shiftl (to_uint64 tag) 32)) (to_uint64 ptr).

Definition JS_FLOAT64_TAG_ADDEND : Z := 0x7ff80000 - JS_TAG_FIRST + 1.

Definition JS_VALUE_GET_FLOAT64 (v : JSValue) : double :=
  to_uint64 (v + to_uint64 (Z.shiftl (to_uint64 JS_FLOAT64_TAG_ADDEND) 32)).

Definition JS_NAN : JSValue :=
  to_uint64 (0x7ff8000000000000
             - to_uint64 (Z.shiftl (to_uint64 JS_FLOAT64_TAG_ADDEND) 32)).

Definition __JS_NewFloat64 (d : double) : JSValue :=
  let u64 := d in
  (* normalize NaN *)
  if u64_is_nan u64 then JS_NAN
  else to_uint64 (u64 - to_uint64 (Z.shiftl (to_uint64 JS_FLOAT64_TAG_ADDEND) 32)).

Definition __JS_NewShortBigInt (ctx : JSContext) (d : Z) : JSValue :=
  JS_MKVAL JS_TAG_SHORT_BIG_INT d.

(** [(unsigned)((tag) - JS_TAG_FIRST) >= (JS_TAG_FLOAT64 - JS_TAG_FIRST)];
    the macro is applied to [int] and to [uint32_t] tags, which the
    conversion to [unsigned] identifies. *)
Definition JS_TAG_IS_FLOAT64 (tag : Z) : bool :=
  to_uint32 (tag - JS_TAG_FIRST) >=? JS_TAG_FLOAT64 - JS_TAG_FIRST.

Definition JS_VALUE_GET_NORM_TAG (v : JSValue) : Z :=
  let tag := to_uint32 (JS_VALUE_GET_TAG v) in
  if JS_TAG_IS_FLOAT64 tag then JS_TAG_FLOAT64 else to_int32 tag.

Definition JS_VALUE_IS_NAN (v : JSValue) : bool :=
  let tag := to_uint32 (JS_VALUE_GET_TAG v) in
  tag =? Z.shiftr JS_NAN 32.

End NanBoxing.

(** ** Struct layout (the default on 64-bit targets) *)

Module StructLayout.

(** [union JSValueUnion]: the member last stored.  [int32] and
    [short_big_int] are both [int32_t] and share their storage. *)
Inductive JSValueUnion : Type :=
| U_int32 (int32 : Z)
| U_float64 (float64 : double)
| U_ptr (ptr : Z)
| U_short_big_int (short_big_int : Z).

(** [struct JSValue { JSValueUnion u; int64_t tag; }] *)
Record JSValue : Type := mkJSValue { u : JSValueUnion; tag : Z }.

(** Member reads.  A read through a member of another representation
    than the one stored depends on bytes the store left indeterminate,
    and yields [None]. *)
Definition union_int32 (x : JSValueUnion) : option Z :=
  match x with
  | U_int32 i | U_short_big_int i => Some i
  | _ => None
  end.

Definition union_short_big_int (x : JSValueUnion) : option Z :=
  match x with
  | U_int32 i | U_short_big_int i => Some i
  | _ => None
  end.

Definition union_float64 (x : JSValueUnion) : option double :=
  match x with
  | U_float64 d => Some d
  | _ => None
  end.

Definition union_ptr (x : JSValueUnion) : option Z :=
  match x with
  | U_ptr p => Some p
  | _ => None
  end.

Definition JS_VALUE_GET_TAG (v : JSValue) : Z := to_int32 (tag v).
Definition JS_VALUE_GET_NORM_TAG (v : JSValue) : Z := JS_VALUE_GET_TAG v.
Definition JS_VALUE_GET_INT (v : JSValue) : option Z := union_int32 (u v).
Definition JS_VALUE_GET_BOOL (v : JSValue) : option Z := union_int32 (u v).
Definition JS_VALUE_GET_FLOAT64 (v : JSValue) : option double :=
  union_float64 (u v).
Definition JS_VALUE_GET_SHORT_BIG_INT (v : JSValue) : option Z :=
  union_short_big_int (u v).
Definition JS_VALUE_GET_PTR (v : JSValue) : option Z := union_ptr (u v).

Definition JS_MKPTR (tag ptr : Z) : JSValue :=
  {| u := U_ptr ptr; tag := to_int64 tag |}.
Definition JS_MKVAL (tag val : Z) : JSValue :=
  {| u := U_int32 (to_int32 val); tag := to_int64 tag |}.

(** [((unsigned)(tag) == JS_TAG_FLOAT64)] *)
Definition JS_TAG_IS_FLOAT64 (tag : Z) : bool :=
  to_uint32 tag =? JS_TAG_FLOAT64.

Definition __JS_NewFloat64 (d : double) : JSValue :=
  {| u := U_float64 d; tag := JS_TAG_FLOAT64 |}.

(** The parameter is an [int64_t] here, narrowed by the store. *)
Definition __JS_NewShortBigInt (ctx : JSContext) (d : Z) : JSValue :=
  {| u := U_short_big_int (to_int32 d); tag := JS_TAG_SHORT_BIG_INT |}.

Definition JS_VALUE_IS_NAN (v : JSValue) : option bool :=
  if negb (tag v =? JS_TAG_FLOAT64) then Some false
  else
    match union_float64 (u v) with
    | Some d => Some (u64_is_nan d)
    | None => None
    end.

End StructLayout.

(** ** Checked layout ([JS_CHECK_JSVALUE])

    "does not produce working code": a [JSValue] is a pointer, modelled by
    its [intptr_t] value, for a pointer width of [w] bits. *)

Module Checked.

Definition to_intptr (w z : Z) : Z := (z + 2 ^ (w - 1)) mod 2 ^ w - 2 ^ (w - 1).

Definition JSValue : Type := Z.

(** [(tag) | (intptr_t)(val) << 4]: the shift binds tighter than [|]. *)
Definition JS_MKVAL (w tag val : Z) : JSValue :=
  to_intptr w (Z.lor tag (to_intptr w (Z.shiftl (to_intptr w val) 4))).
Definition JS_MKPTR (w tag ptr : Z) : JSValue :=
  to_intptr w (Z.lor tag (to_intptr w ptr)).
Definition JS_VALUE_GET_NORM_TAG (v : JSValue) : Z := to_int32 (Z.land v 15).
Definition JS_VALUE_GET_TAG (v : JSValue) : Z := to_int32 (Z.land v 15).
Definition JS_VALUE_GET_PTR (v : JSValue) : Z := Z.land v (Z.lnot 15).
Definition JS_VALUE_GET_INT (v : JSValue) : Z := to_int32 (Z.shiftr v 4).
Definition JS_VALUE_GET_BOOL (v : JSValue) : Z := to_int32 (Z.shiftr v 4).
Definition JS_VALUE_GET_SHORT_BIG_INT (v : JSValue) : Z := JS_VALUE_GET_INT v.
Definition JS_VALUE_GET_FLOAT64 (v : JSValue) : double :=
  double_of_Z (Z.shiftr v 4).
Definition JS_TAG_IS_FLOAT64 (tag : Z) : bool :=
  to_int32 tag =? JS_TAG_FLOAT64.
Definition JS_NAN (w : Z) : JSValue := JS_MKVAL w JS_TAG_FLOAT64 0.

(** [JS_MKVAL(JS_TAG_FLOAT64, (int)d)], defined where [(int)d] is. *)
Definition __JS_NewFloat64 (w : Z) (d : double) : option JSValue :=
  option_map (JS_MKVAL w JS_TAG_FLOAT64) (int_of_double d).

Definition __JS_NewShortBigInt (w : Z) (ctx : JSContext) (d : Z) : JSValue :=
  JS_MKVAL w JS_TAG_SHORT_BIG_INT d.

Definition JS_VALUE_IS_NAN (v : JSValue) : bool := false.

End Checked.

(** ** The layout interface and the code written against it

    Everything after the [#endif] of the layout selection is written once,
    against the macros the selected layout provides. *)

Class Layout : Type := {
  JSValue : Type;
  JS_MKVAL : Z -> Z -> JSValue;
  JS_MKPTR : Z -> Z -> JSValue;
  JS_VALUE_GET_TAG : JSValue -> Z;
  JS_TAG_IS_FLOAT64 : Z -> bool;
  __JS_NewFloat64 : double -> JSValue;
  __JS_NewShortBigInt : JSContext -> Z -> JSValue;
}.

Definition nan_boxing : Layout := {|
  JSValue := NanBoxing.JSValue;
  JS_MKVAL := NanBoxing.JS_MKVAL;
  JS_MKPTR := NanBoxing.JS_MKPTR;
  JS_VALUE_GET_TAG := NanBoxing.JS_VALUE_GET_TAG;
  JS_TAG_IS_FLOAT64 := NanBoxing.JS_TAG_IS_FLOAT64;
  __JS_NewFloat64 := NanBoxing.__JS_NewFloat64;
  __JS_NewShortBigInt := NanBoxing.__JS_NewShortBigInt;
|}.

Definition struct_layout : Layout := {|
  JSValue := StructLayout.JSValue;
  JS_MKVAL := StructLayout.JS_MKVAL;
  JS_MKPTR := StructLayout.JS_MKPTR;
  JS_VALUE_GET_TAG := StructLayout.JS_VALUE_GET_TAG;
  JS_TAG_IS_FLOAT64 := StructLayout.JS_TAG_IS_FLOAT64;
  __JS_NewFloat64 := StructLayout.__JS_NewFloat64;
  __JS_NewShortBigInt := StructLayout.__JS_NewShortBigInt;
|}.

Section Shared.

Context {L : Layout}.

Definition JS_VALUE_IS_BOTH_INT (v1 v2 : JSValue) : bool :=
  Z.lor (JS_VALUE_GET_TAG v1) (JS_VALUE_GET_TAG v2) =? 0.

Definition JS_VALUE_IS_BOTH_FLOAT (v1 v2 : JSValue) : bool :=
  JS_TAG_IS_FLOAT64 (JS_VALUE_GET_TAG v1)
  && JS_TAG_IS_FLOAT64 (JS_VALUE_GET_TAG v2).

Definition JS_VALUE_HAS_REF_COUNT (v : JSValue) : bool :=
  to_uint32 (JS_VALUE_GET_TAG v) >=? to_uint32 JS_TAG_FIRST.

Definition JS_NULL : JSValue := JS_MKVAL JS_TAG_NULL 0.
Definition JS_UNDEFINED : JSValue := JS_MKVAL JS_TAG_UNDEFINED 0.
Definition JS_FALSE : JSValue := JS_MKVAL JS_TAG_BOOL 0.
Definition JS_TRUE : JSValue := JS_MKVAL JS_TAG_BOOL 1.
Definition JS_EXCEPTION : JSValue := JS_MKVAL JS_TAG_EXCEPTION 0.
Definition JS_UNINITIALIZED : JSValue := JS_MKVAL JS_TAG_UNINITIALIZED 0.

Definition JS_NewBool (ctx : JSContext) (val : bool) : JSValue :=
  JS_MKVAL JS_TAG_BOOL (if negb (Bool.eqb val false) then 1 else 0).

Definition JS_NewInt32 (ctx : JSContext) (val : Z) : JSValue :=
  JS_MKVAL JS_TAG_INT val.

Definition JS_NewFloat64 (ctx : JSContext) (val : double) : JSValue :=
  __JS_NewFloat64 val.

Definition JS_NewCatchOffset (ctx : JSContext) (val : Z) : JSValue :=
  JS_MKVAL JS_TAG_CATCH_OFFSET val.

Definition JS_NewInt64 (ctx : JSContext) (val : Z) : JSValue :=
  if (val >=? INT32_MIN) && (val <=? INT32_MAX) then
    JS_NewInt32 ctx (to_int32 val)
  else
    JS_NewFloat64 ctx (double_of_Z val).

Definition JS_NewUint32 (ctx : JSContext) (val : Z) : JSValue :=
  if val <=? INT32_MAX then
    JS_NewInt32 ctx (to_int32 val)
  else
    JS_NewFloat64 ctx (double_of_Z val).

Definition JS_IsNumber (v : JSValue) : bool :=
  let tag := JS_VALUE_GET_TAG v in
  (tag =? JS_TAG_INT) || JS_TAG_IS_FLOAT64 tag.

Definition JS_IsBigInt (v : JSValue) : bool :=
  let tag := JS_VALUE_GET_TAG v in
  (tag =? JS_TAG_BIG_INT) || (tag =? JS_TAG_SHORT_BIG_INT).

Definition JS_IsBool (v : JSValue) : bool :=
  JS_VALUE_GET_TAG v =? JS_TAG_BOOL.

Definition JS_IsNull (v : JSValue) : bool :=
  JS_VALUE_GET_TAG v =? JS_TAG_NULL.

Definition JS_IsUndefined (v : JSValue) : bool :=
  JS_VALUE_GET_TAG v =? JS_TAG_UNDEFINED.

Definition JS_IsException (v : JSValue) : bool :=
  JS_VALUE_GET_TAG v =? JS_TAG_EXCEPTION.

Definition JS_IsUninitialized (v : JSValue) : bool :=
  JS_VALUE_GET_TAG v =? JS_TAG_UNINITIALIZED.

Definition JS_IsString (v : JSValue) : bool :=
  JS_VALUE_GET_TAG v =? JS_TAG_STRING.

Definition JS_IsSymbol (v : JSValue) : bool :=
  JS_VALUE_GET_TAG v =? JS_TAG_SYMBOL.

Definition JS_IsObject (v : JSValue) : bool :=
  JS_VALUE_GET_TAG v =? JS_TAG_OBJECT.

Definition JS_IsModule (v : JSValue) : bool :=
  JS_VALUE_GET_TAG v =? JS_TAG_MODULE.

End Shared.

(** ** Notions used to state the properties *)

(** The tag values the NaN-boxed layout does not decode as a float: the
    [JS_TAG_FLOAT64 - JS_TAG_FIRST] values from [JS_TAG_FIRST] up to
    [JS_TAG_SHORT_BIG_INT].  The three values [-6], [-5] and [-4] of that
    range are assigned to no enumerator. *)
Definition non_float_tag_values : list Z :=
  map (fun i => JS_TAG_FIRST + Z.of_nat i)
      (seq 0 (Z.to_nat (JS_TAG_FLOAT64 - JS_TAG_FIRST))).

Definition non_float_tag_value_count : Z := Z.of_nat (length non_float_tag_values).

(** The unsigned distance of a tag from the lowest reference-counted tag. *)
Definition tag_distance (tag : Z) : Z := to_uint32 (tag - JS_TAG_FIRST).

(** What the non-normalizing branch of [NanBoxing.__JS_NewFloat64] computes,
    taken on its own. *)
Definition box_without_normalization (d : double) : NanBoxing.JSValue :=
  to_uint64
    (d - to_uint64 (Z.shiftl (to_uint64 NanBoxing.JS_FLOAT64_TAG_ADDEND) 32)).

(** A value decodes as the double [d]: its normalized tag is
    [JS_TAG_FLOAT64] and [JS_VALUE_GET_FLOAT64] reads [d], in the NaN-boxed
    and in the struct layout. *)
Definition nan_boxing_float64_of (v : NanBoxing.JSValue) (d : double) : Prop :=
  NanBoxing.JS_VALUE_GET_NORM_TAG v = JS_TAG_FLOAT64
  /\ NanBoxing.JS_VALUE_GET_FLOAT64 v = d.

Definition struct_float64_of (v : StructLayout.JSValue) (d : double) : Prop :=
  StructLayout.JS_VALUE_GET_NORM_TAG v = JS_TAG_FLOAT64
  /\ StructLayout.JS_VALUE_GET_FLOAT64 v = Some d.

Definition in_int32_range (v : Z) : Prop := INT32_MIN <= v <= INT32_MAX.

(** The ways of constructing an inline value that the classifiers are
    checked against. *)
Inductive construction : Type :=
| By_JS_NewInt32 (val : Z)
| By_JS_NewFloat64 (val : double)
| By_JS_NewInt64 (val : Z)
| By_JS_NewUint32 (val : Z)
| By_JS_NewShortBigInt (d : Z)
| By_JS_NewBool (val : bool)
| By_JS_NULL
| By_JS_UNDEFINED
| By_JS_UNINITIALIZED
| By_JS_EXCEPTION.

(** The arguments have the C types of the parameters. *)
Definition well_typed (c : construction) : Prop :=
  match c with
  | By_JS_NewInt32 val => is_int32 val
  | By_JS_NewFloat64 val => is_double val
  | By_JS_NewInt64 val => is_int64 val
  | By_JS_NewUint32 val => is_uint32 val
  | By_JS_NewShortBigInt d => is_int32 d
  | _ => True
  end.

Definition construct {L : Layout} (ctx : JSContext) (c : construction)
  : JSValue :=
  match c with
  | By_JS_NewInt32 val => JS_NewInt32 ctx val
  | By_JS_NewFloat64 val => JS_NewFloat64 ctx val
  | By_JS_NewInt64 val => JS_NewInt64 ctx val
  | By_JS_NewUint32 val => JS_NewUint32 ctx val
  | By_JS_NewShortBigInt d => __JS_NewShortBigInt ctx d
  | By_JS_NewBool val => JS_NewBool ctx val
  | By_JS_NULL => JS_NULL
  | By_JS_UNDEFINED => JS_UNDEFINED
  | By_JS_UNINITIALIZED => JS_UNINITIALIZED
  | By_JS_EXCEPTION => JS_EXCEPTION
  end.

(** The answers of the seven classifiers, in the order number, big
    integer, boolean, null, undefined, uninitialized, exception. *)
Definition classify {L : Layout} (v : JSValue) : list bool :=
  [JS_IsNumber v; JS_IsBigInt v; JS_IsBool v; JS_IsNull v; JS_IsUndefined v;
   JS_IsUninitialized v; JS_IsException v].

(** The one classifier each construction is meant to satisfy. *)
Definition expected_class (c : construction) : list bool :=
  match c with
  | By_JS_NewInt32 _ | By_JS_NewFloat64 _ | By_JS_NewInt64 _
  | By_JS_NewUint32 _ => [true; false; false; false; false; false; false]
  | By_JS_NewShortBigInt _ => [false; true; false; false; false; false; false]
  | By_JS_NewBool _ => [false; false; true; false; false; false; false]
  | By_JS_NULL => [false; false; false; true; false; false; false]
  | By_JS_UNDEFINED => [false; false; false; false; true; false; false]
  | By_JS_UNINITIALIZED => [false; false; false; false; false; true; false]
  | By_JS_EXCEPTION => [false; false; false; false; false; false; true]
  end.

Definition count_true (l : list bool) : nat := count_occ bool_dec l true.

(** ** Further code of the header *)

(** The conversion of an [int] to [bool]: zero is false, anything else
    true. *)
Definition bool_of_int (z : Z) : bool := negb (z =? 0).

Section Conversions.

Context {L : Layout}.

(** [JS_ToBool] is declared here and defined elsewhere: "return -1 for
    JS_EXCEPTION".  It is taken as it comes. *)
Variable JS_ToBool : JSContext -> JSValue -> Z.

(** The [int] result is converted to the [bool] parameter of
    [JS_NewBool]. *)
Definition JS_ToBoolean (ctx : JSContext) (val : JSValue) : JSValue :=
  JS_NewBool ctx (bool_of_int (JS_ToBool ctx val)).

End Conversions.

(** The answers of all eleven classifiers of the header. *)
Definition classify_all {L : Layout} (v : JSValue) : list bool :=
  [JS_IsNumber v; JS_IsBigInt v; JS_IsBool v; JS_IsNull v; JS_IsUndefined v;
   JS_IsException v; JS_IsUninitialized v; JS_IsString v; JS_IsSymbol v;
   JS_IsObject v; JS_IsModule v].

(** *** Flags for object properties *)

Definition JS_PROP_CONFIGURABLE : Z := Z.shiftl 1 0.
Definition JS_PROP_WRITABLE : Z := Z.shiftl 1 1.
Definition JS_PROP_ENUMERABLE : Z := Z.shiftl 1 2.
Definition JS_PROP_C_W_E : Z :=
  Z.lor (Z.lor JS_PROP_CONFIGURABLE JS_PROP_WRITABLE) JS_PROP_ENUMERABLE.
Definition JS_PROP_LENGTH : Z := Z.shiftl 1 3.
Definition JS_PROP_TMASK : Z := Z.shiftl 3 4.
Definition JS_PROP_NORMAL : Z := Z.shiftl 0 4.
Definition JS_PROP_GETSET : Z := Z.shiftl 1 4.
Definition JS_PROP_VARREF : Z := Z.shiftl 2 4.
Definition JS_PROP_AUTOINIT : Z := Z.shiftl 3 4.

(** Flags for [JS_DefineProperty]. *)
Definition JS_PROP_HAS_SHIFT : Z := 8.
Definition JS_PROP_HAS_CONFIGURABLE : Z := Z.shiftl 1 8.
Definition JS_PROP_HAS_WRITABLE : Z := Z.shiftl 1 9.
Definition JS_PROP_HAS_ENUMERABLE : Z := Z.shiftl 1 10.
Definition JS_PROP_HAS_GET : Z := Z.shiftl 1 11.
Definition JS_PROP_HAS_SET : Z := Z.shiftl 1 12.
Definition JS_PROP_HAS_VALUE : Z := Z.shiftl 1 13.
Definition JS_PROP_THROW : Z := Z.shiftl 1 14.
Definition JS_PROP_THROW_STRICT : Z := Z.shiftl 1 15.
Definition JS_PROP_NO_ADD : Z := Z.shiftl 1 16.
Definition JS_PROP_NO_EXOTIC : Z := Z.shiftl 1 17.
Definition JS_PROP_DEFINE_PROPERTY : Z := Z.shiftl 1 18.
Definition JS_PROP_REFLECT_DEFINE_PROPERTY : Z := Z.shiftl 1 19.

(** The flags that are a single bit, and the four values of the type
    field under [JS_PROP_TMASK]. *)
Definition js_prop_flags : list Z :=
  [JS_PROP_CONFIGURABLE; JS_PROP_WRITABLE; JS_PROP_ENUMERABLE; JS_PROP_LENGTH;
   JS_PROP_HAS_CONFIGURABLE; JS_PROP_HAS_WRITABLE; JS_PROP_HAS_ENUMERABLE;
   JS_PROP_HAS_GET; JS_PROP_HAS_SET; JS_PROP_HAS_VALUE; JS_PROP_THROW;
   JS_PROP_THROW_STRICT; JS_PROP_NO_ADD; JS_PROP_NO_EXOTIC;
   JS_PROP_DEFINE_PROPERTY; JS_PROP_REFLECT_DEFINE_PROPERTY].

Definition js_prop_types : list Z :=
  [JS_PROP_NORMAL; JS_PROP_GETSET; JS_PROP_VARREF; JS_PROP_AUTOINIT].

(** *** Flags of [JS_Eval] *)

Definition JS_EVAL_TYPE_GLOBAL : Z := Z.shiftl 0 0.
Definition JS_EVAL_TYPE_MODULE : Z := Z.shiftl 1 0.
Definition JS_EVAL_TYPE_DIRECT : Z := Z.shiftl 2 0.
Definition JS_EVAL_TYPE_INDIRECT : Z := Z.shiftl 3 0.
Definition JS_EVAL_TYPE_MASK : Z := Z.shiftl 3 0.
Definition JS_EVAL_FLAG_STRICT : Z := Z.shiftl 1 3.
Definition JS_EVAL_FLAG_UNUSED : Z := Z.shiftl 1 4.
Definition JS_EVAL_FLAG_COMPILE_ONLY : Z := Z.shiftl 1 5.
Definition JS_EVAL_FLAG_BACKTRACE_BARRIER : Z := Z.shiftl 1 6.
Definition JS_EVAL_FLAG_ASYNC : Z := Z.shiftl 1 7.

Definition js_eval_flags : list Z :=
  [JS_EVAL_FLAG_STRICT; JS_EVAL_FLAG_UNUSED; JS_EVAL_FLAG_COMPILE_ONLY;
   JS_EVAL_FLAG_BACKTRACE_BARRIER; JS_EVAL_FLAG_ASYNC].

Definition js_eval_types : list Z :=
  [JS_EVAL_TYPE_GLOBAL; JS_EVAL_TYPE_MODULE; JS_EVAL_TYPE_DIRECT;
   JS_EVAL_TYPE_INDIRECT].

(** The two families of flag words of the header, each with the mask of
    its type field, the values of that field and its single-bit flags. *)
Inductive flag_family : Type :=
| Property_flags
| Eval_flags.

Definition family_mask (fam : flag_family) : Z :=
  match fam with
  | Property_flags => JS_PROP_TMASK
  | Eval_flags => JS_EVAL_TYPE_MASK
  end.

Definition family_types (fam : flag_family) : list Z :=
  match fam with
  | Property_flags => js_prop_types
  | Eval_flags => js_eval_types
  end.

Definition family_flags (fam : flag_family) : list Z :=
  match fam with
  | Property_flags => js_prop_flags
  | Eval_flags => js_eval_flags
  end.

(** A word of flags: one value of the field under the mask, or-ed with
    some of the single-bit flags. *)
Definition flag_word (type : Z) (flags : list Z) : Z :=
  fold_right Z.lor type flags.

(** [(word & flag) != 0] *)
Definition flag_is_set (word flag : Z) : bool := negb (Z.land word flag =? 0).

(** * Proofs *)

(** ** Arithmetic of the conversions and of the bit operations *)

Ltac unfold_conv :=
  unfold to_int32, to_uint32, to_int64, to_uint64, is_int32, is_int64,
    is_uint32, is_uint64, is_double, INT32_MIN, INT32_MAX, INT64_MIN, INT64_MAX,
    UINT32_MAX in *.

(** Goals that are linear once the divisions and remainders by constants
    are named. *)
Ltac solve_div_mod := unfold_conv; Z.div_mod_to_equations; lia.

(** Case analysis on a membership [H] in one of the lists of tags: [tac]
    is run with the tag replaced by each enumerator in turn. *)
Ltac each_tag H tac :=
  cbv [enumerated_tags non_float_tags ref_counted_tags inline_tags
       inline_non_float_tags app In] in H;
  repeat (destruct H as [<- | H]; [tac|]);
  contradiction.

Lemma land_shiftl_low (a b n : Z) :
  0 <= n -> 0 <= b < 2 ^ n -> Z.land (Z.shiftl a n) b = 0.
Proof.
  intros Hn Hb. apply Z.bits_inj'. intros k Hk.
  rewrite Z.land_spec, Z.bits_0.
  destruct (Z.lt_ge_cases k n) as [Hlt | Hge].
  - rewrite Z.shiftl_spec_low by assumption. reflexivity.
  - destruct (Z.eq_dec b 0) as [-> | Hnz].
    + rewrite Z.bits_0. apply andb_false_r.
    + rewrite (Z.bits_above_log2 b k).
      * apply andb_false_r.
      * lia.
      * apply Z.lt_le_trans with n; [apply Z.log2_lt_pow2; lia | assumption].
Qed.

Lemma lor_shiftl_low (a b n : Z) :
  0 <= n -> 0 <= b < 2 ^ n -> Z.lor (a * 2 ^ n) b = a * 2 ^ n + b.
Proof.
  intros Hn Hb.
  pose proof (Z.add_lor_land (Z.shiftl a n) b) as H.
  rewrite land_shiftl_low in H by assumption.
  rewrite Z.shiftl_mul_pow2 in H by assumption. lia.
Qed.

Lemma land_low_mask (a : Z) : Z.land a 0x7fffffffffffffff = a mod 2 ^ 63.
Proof. change 0x7fffffffffffffff with (Z.ones 63). apply Z.land_ones. lia. Qed.

Lemma to_int32_id (z : Z) : is_int32 z -> to_int32 z = z.
Proof. intros H. solve_div_mod. Qed.

Lemma to_int32_range (z : Z) : is_int32 (to_int32 z).
Proof. solve_div_mod. Qed.

(** ** The NaN-boxed encoding as arithmetic *)

Lemma nb_shift_tag (tag : Z) :
  to_uint64 (Z.shiftl (to_uint64 tag) 32) = to_uint32 tag * 2 ^ 32.
Proof. rewrite Z.shiftl_mul_pow2 by lia. solve_div_mod. Qed.

Lemma nb_mkval_eq (tag val : Z) :
  NanBoxing.JS_MKVAL tag val = to_uint32 tag * 2 ^ 32 + to_uint32 val.
Proof.
  unfold NanBoxing.JS_MKVAL. rewrite nb_shift_tag.
  apply lor_shiftl_low; [lia | unfold to_uint32; apply Z.mod_pos_bound; lia].
Qed.

Lemma nb_get_tag_mkval (tag val : Z) :
  NanBoxing.JS_VALUE_GET_TAG (NanBoxing.JS_MKVAL tag val) = to_int32 tag.
Proof.
  unfold NanBoxing.JS_VALUE_GET_TAG. rewrite nb_mkval_eq.
  rewrite Z.shiftr_div_pow2 by lia. solve_div_mod.
Qed.

Lemma nb_get_int_mkval (tag val : Z) :
  NanBoxing.JS_VALUE_GET_INT (NanBoxing.JS_MKVAL tag val) = to_int32 val.
Proof.
  unfold NanBoxing.JS_VALUE_GET_INT. rewrite nb_mkval_eq. solve_div_mod.
Qed.

Lemma nb_addend_shifted :
  to_uint64 (Z.shiftl (to_uint64 NanBoxing.JS_FLOAT64_TAG_ADDEND) 32)
  = 0x7ff8000a00000000.
Proof. reflexivity. Qed.

Lemma nb_JS_NAN_eq : NanBoxing.JS_NAN = 0xfffffff600000000.
Proof. reflexivity. Qed.

Lemma u64_is_nan_spec (d : Z) :
  u64_is_nan d = true <-> d mod 2 ^ 63 > 0x7ff0000000000000.
Proof.
  unfold u64_is_nan. rewrite land_low_mask. rewrite Z.gtb_ltb, Z.ltb_lt. lia.
Qed.

Lemma u64_is_nan_false (d : Z) :
  u64_is_nan d = false <-> d mod 2 ^ 63 <= 0x7ff0000000000000.
Proof.
  unfold u64_is_nan. rewrite land_low_mask. rewrite Z.gtb_ltb, Z.ltb_ge. lia.
Qed.

Lemma u64_is_nan_double_is_nan (d : double) :
  is_double d -> u64_is_nan d = double_is_nan d.
Proof.
  intros Hd. apply eq_true_iff_eq. rewrite u64_is_nan_spec.
  unfold double_is_nan, double_exponent, double_fraction.
  rewrite andb_true_iff, negb_true_iff, Z.eqb_eq, Z.eqb_neq.
  unfold is_double in Hd. Z.div_mod_to_equations. lia.
Qed.

Lemma nb_newfloat_nan (d : double) :
  u64_is_nan d = true -> NanBoxing.__JS_NewFloat64 d = NanBoxing.JS_NAN.
Proof. intros H. unfold NanBoxing.__JS_NewFloat64. rewrite H. reflexivity. Qed.

Lemma nb_newfloat_not_nan (d : double) :
  u64_is_nan d = false ->
  NanBoxing.__JS_NewFloat64 d = (d - 0x7ff8000a00000000) mod 2 ^ 64.
Proof.
  intros H. unfold NanBoxing.__JS_NewFloat64. rewrite H, nb_addend_shifted.
  reflexivity.
Qed.

Lemma nb_float_tag_outside (d : double) :
  is_double d ->
  let t := NanBoxing.JS_VALUE_GET_TAG (NanBoxing.__JS_NewFloat64 d) in
  is_int32 t /\ (t < JS_TAG_FIRST \/ JS_TAG_FLOAT64 < t).
Proof.
  intros Hd t. subst t. split; [apply to_int32_range|].
  destruct (u64_is_nan d) eqn:E.
  - rewrite nb_newfloat_nan by assumption. left. vm_compute. reflexivity.
  - rewrite nb_newfloat_not_nan by assumption.
    apply u64_is_nan_false in E.
    unfold NanBoxing.JS_VALUE_GET_TAG. rewrite Z.shiftr_div_pow2 by lia.
    unfold JS_TAG_FIRST, JS_TAG_FLOAT64. solve_div_mod.
Qed.

Lemma nb_is_float_spec (tag : Z) :
  is_int32 tag ->
  NanBoxing.JS_TAG_IS_FLOAT64 tag = true
  <-> (tag < JS_TAG_FIRST \/ JS_TAG_FLOAT64 <= tag).
Proof.
  intros H. unfold NanBoxing.JS_TAG_IS_FLOAT64.
  rewrite Z.geb_le. unfold JS_TAG_FIRST, JS_TAG_FLOAT64. solve_div_mod.
Qed.

(** ** The conversion of integers to doubles *)

Lemma double_of_Z_bounds (v : Z) :
  Z.abs v < 2 ^ 64 ->
  0 <= double_of_Z v < 2 ^ 64 /\
  (double_of_Z v) mod 2 ^ 63 <= 1087 * 2 ^ 52.
Proof.
  intros Hv. unfold double_of_Z.
  destruct (Z.eqb_spec (Z.abs v) 0) as [_ | Hm]; [cbn; lia|].
  set (m := Z.abs v) in *.
  assert (Hmpos : 0 < m) by (subst m; lia).
  pose proof (Z.log2_spec m Hmpos) as [Hlo Hhi].
  assert (He : 0 <= Z.log2 m < 64).
  { split; [apply Z.log2_nonneg | apply Z.log2_lt_pow2; lia]. }
  set (e := Z.log2 m) in *.
  set (s := if v <? 0 then 1 else 0).
  assert (Hs : s = 0 \/ s = 1) by (subst s; destruct (v <? 0); lia).
  destruct (Z.leb_spec e 52) as [Hle | Hgt].
  - assert (Hp : 2 ^ e * 2 ^ (52 - e) = 2 ^ 52).
    { rewrite <- Z.pow_add_r by lia. f_equal. lia. }
    assert (Hp1 : 0 < 2 ^ (52 - e)) by (apply Z.pow_pos_nonneg; lia).
    assert (Hf : 2 ^ 52 <= m * 2 ^ (52 - e) < 2 ^ 53).
    { replace (Z.succ e) with (e + 1) in Hhi by lia.
      rewrite Z.pow_add_r in Hhi by lia. change (2 ^ 1) with 2 in Hhi.
      change (2 ^ 53) with (2 * 2 ^ 52). nia. }
    set (f := m * 2 ^ (52 - e)) in *.
    destruct Hs as [-> | ->]; Z.div_mod_to_equations; lia.
  - set (sh := e - 52) in *.
    assert (Hp : 2 ^ 52 * 2 ^ sh = 2 ^ e).
    { rewrite <- Z.pow_add_r by lia. f_equal. lia. }
    assert (Hp1 : 0 < 2 ^ sh) by (apply Z.pow_pos_nonneg; lia).
    assert (Hq : 2 ^ 52 <= m / 2 ^ sh < 2 ^ 53).
    { split.
      - apply Z.div_le_lower_bound; lia.
      - apply Z.div_lt_upper_bound; [lia|].
        replace (Z.succ e) with (e + 1) in Hhi by lia.
        rewrite Z.pow_add_r in Hhi by lia. change (2 ^ 1) with 2 in Hhi.
        change (2 ^ 53) with (2 * 2 ^ 52). nia. }
    set (q := m / 2 ^ sh) in *.
    match goal with |- context [if ?c then q + 1 else q] =>
      set (q' := if c then q + 1 else q) end.
    assert (Hq' : q <= q' <= q + 1).
    { subst q'.
      match goal with |- context [if ?c then _ else _] => destruct c end; lia. }
    destruct Hs as [-> | ->]; Z.div_mod_to_equations; lia.
Qed.

(** On the samples the conversion is the library's round-to-nearest-even
    normalization of the integer to 53 bits of precision. *)
Example double_of_Z_agrees_with_binary_normalize :
  map (fun v => double_to_SF (double_of_Z v)) conversion_samples
  = map (fun v => binary_normalize 53 1024 v 0 false) conversion_samples.
Proof. vm_compute. reflexivity. Qed.

Lemma double_of_Z_is_double (v : Z) :
  Z.abs v < 2 ^ 64 -> is_double (double_of_Z v).
Proof. intros H. apply double_of_Z_bounds, H. Qed.

Lemma double_of_Z_not_nan (v : Z) :
  Z.abs v < 2 ^ 64 -> u64_is_nan (double_of_Z v) = false.
Proof.
  intros H. apply u64_is_nan_false.
  pose proof (double_of_Z_bounds v H) as [_ Hb]. lia.
Qed.

(** ** Decoding what was encoded *)

Lemma nb_get_float64_newfloat (d : double) :
  is_double d -> u64_is_nan d = false ->
  NanBoxing.JS_VALUE_GET_FLOAT64 (NanBoxing.__JS_NewFloat64 d) = d.
Proof.
  intros Hd Hn. rewrite nb_newfloat_not_nan by assumption.
  unfold NanBoxing.JS_VALUE_GET_FLOAT64. rewrite nb_addend_shifted. solve_div_mod.
Qed.

Lemma nb_get_float64_nan (d : double) :
  u64_is_nan d = true ->
  NanBoxing.JS_VALUE_GET_FLOAT64 (NanBoxing.__JS_NewFloat64 d) = canonical_nan.
Proof. intros Hn. rewrite nb_newfloat_nan by assumption. reflexivity. Qed.

Lemma nb_get_tag_mkptr (tag ptr : Z) :
  is_uint32 ptr ->
  NanBoxing.JS_VALUE_GET_TAG (NanBoxing.JS_MKPTR tag ptr) = to_int32 tag.
Proof.
  intros Hp. unfold NanBoxing.JS_MKPTR.
  replace (to_uint64 ptr) with (to_uint32 ptr) by solve_div_mod.
  apply nb_get_tag_mkval.
Qed.

Lemma st_get_tag_mkval (tag val : Z) :
  is_int32 tag ->
  StructLayout.JS_VALUE_GET_TAG (StructLayout.JS_MKVAL tag val) = tag.
Proof. intros H. unfold StructLayout.JS_VALUE_GET_TAG. cbn. solve_div_mod. Qed.

Lemma st_get_tag_mkptr (tag ptr : Z) :
  is_int32 tag ->
  StructLayout.JS_VALUE_GET_TAG (StructLayout.JS_MKPTR tag ptr) = tag.
Proof. intros H. unfold StructLayout.JS_VALUE_GET_TAG. cbn. solve_div_mod. Qed.

(** ** The tags and the reference-count test *)

Lemma enumerated_tags_int32 (tag : Z) :
  In tag enumerated_tags -> is_int32 tag.
Proof.
  intros H. unfold is_int32, INT32_MIN, INT32_MAX.
  each_tag H ltac:(vm_compute; split; discriminate).
Qed.

Lemma enumerated_tags_range (tag : Z) :
  In tag enumerated_tags -> JS_TAG_FIRST <= tag <= JS_TAG_FLOAT64.
Proof.
  intros H. each_tag H ltac:(vm_compute; split; discriminate).
Qed.

Lemma ref_count_test_spec (tag : Z) :
  is_int32 tag ->
  (to_uint32 tag >=? to_uint32 JS_TAG_FIRST) = true
  <-> JS_TAG_FIRST <= tag < JS_TAG_INT.
Proof.
  intros H. rewrite Z.geb_le. unfold JS_TAG_FIRST, JS_TAG_INT. solve_div_mod.
Qed.

Lemma enumerated_ref_counted (tag : Z) :
  In tag enumerated_tags ->
  (JS_TAG_FIRST <= tag < JS_TAG_INT <-> In tag ref_counted_tags).
Proof.
  intros H.
  each_tag H ltac:(vm_compute; intuition (try discriminate; try congruence)).
Qed.

(** C1: in both runnable layouts, [JS_VALUE_HAS_REF_COUNT] holds of a value
    built with an enumerated tag (by [JS_MKVAL] with any payload, or by
    [JS_MKPTR]) exactly when the tag is one of the six reference-counted
    tags; the unsigned comparison of the tag with [JS_TAG_FIRST] is that
    same test, and every reference-counted tag is below every other
    enumerated tag. *)
Theorem has_ref_count_iff_ref_counted_tag (tag payload ptr : Z) :
  In tag enumerated_tags ->
  is_uint32 ptr ->
  (@JS_VALUE_HAS_REF_COUNT nan_boxing (JS_MKVAL tag payload) = true
   <-> In tag ref_counted_tags)
  /\ (@JS_VALUE_HAS_REF_COUNT struct_layout (JS_MKVAL tag payload) = true
      <-> In tag ref_counted_tags)
  /\ (@JS_VALUE_HAS_REF_COUNT nan_boxing (JS_MKPTR tag ptr) = true
      <-> In tag ref_counted_tags)
  /\ (@JS_VALUE_HAS_REF_COUNT struct_layout (JS_MKPTR tag ptr) = true
      <-> In tag ref_counted_tags)
  /\ ((to_uint32 tag >=? to_uint32 JS_TAG_FIRST) = true
      <-> In tag ref_counted_tags)
  /\ (forall other : Z,
        In tag ref_counted_tags ->
        In other enumerated_tags ->
        ~ In other ref_counted_tags ->
        tag < other).
Proof.
  intros Htag Hptr.
  pose proof (enumerated_tags_int32 tag Htag) as Hi.
  pose proof (enumerated_ref_counted tag Htag) as Hrc.
  pose proof (ref_count_test_spec tag Hi) as Hcmp.
  unfold JS_VALUE_HAS_REF_COUNT. cbn [JS_VALUE_GET_TAG JS_MKVAL JS_MKPTR
    nan_boxing struct_layout].
  rewrite nb_get_tag_mkval, (nb_get_tag_mkptr tag ptr Hptr),
    (to_int32_id tag Hi), (st_get_tag_mkval tag payload Hi),
    (st_get_tag_mkptr tag ptr Hi).
  repeat split; try (rewrite Hcmp; apply Hrc); try (rewrite <- Hrc; apply Hcmp).
  intros other Hin Hother Hnot.
  pose proof (enumerated_ref_counted other Hother) as Ho.
  apply Hrc in Hin.
  assert (~ (JS_TAG_FIRST <= other < JS_TAG_INT)) as Hout by tauto.
  assert (JS_TAG_FIRST <= other)
    by each_tag Hother ltac:(vm_compute; discriminate).
  lia.
Qed.

Lemma has_ref_count_iff_ref_counted_tag_witness :
  In JS_TAG_OBJECT enumerated_tags
  /\ is_uint32 4096
  /\ (@JS_VALUE_HAS_REF_COUNT nan_boxing (JS_MKVAL JS_TAG_OBJECT 42) = true
      <-> In JS_TAG_OBJECT ref_counted_tags)
  /\ (@JS_VALUE_HAS_REF_COUNT struct_layout (JS_MKVAL JS_TAG_OBJECT 42) = true
      <-> In JS_TAG_OBJECT ref_counted_tags).
Proof.
  assert (Hin : In JS_TAG_OBJECT enumerated_tags).
  { cbv [enumerated_tags ref_counted_tags app In]. tauto. }
  assert (Hp : is_uint32 4096).
  { unfold is_uint32, UINT32_MAX. lia. }
  pose proof (has_ref_count_iff_ref_counted_tag JS_TAG_OBJECT 42 4096 Hin Hp)
    as (H1 & H2 & _).
  exact (conj Hin (conj Hp (conj H1 H2))).
Defined.

(** ** Doubles under NaN boxing *)

Lemma nan_boxing_float_norm_tag (d : double) :
  is_double d ->
  NanBoxing.JS_VALUE_GET_NORM_TAG (NanBoxing.__JS_NewFloat64 d)
  = JS_TAG_FLOAT64.
Proof.
  intros Hd.
  pose proof (nb_float_tag_outside d Hd) as [Hi Hout].
  unfold NanBoxing.JS_VALUE_GET_NORM_TAG.
  replace (NanBoxing.JS_TAG_IS_FLOAT64
             (to_uint32 (NanBoxing.JS_VALUE_GET_TAG
                           (NanBoxing.__JS_NewFloat64 d)))) with true;
    [reflexivity|].
  symmetry.
  replace (NanBoxing.JS_TAG_IS_FLOAT64
             (to_uint32 (NanBoxing.JS_VALUE_GET_TAG
                           (NanBoxing.__JS_NewFloat64 d))))
    with (NanBoxing.JS_TAG_IS_FLOAT64
            (NanBoxing.JS_VALUE_GET_TAG (NanBoxing.__JS_NewFloat64 d))).
  - apply nb_is_float_spec; [assumption | lia].
  - unfold NanBoxing.JS_TAG_IS_FLOAT64. f_equal. solve_div_mod.
Qed.

(** C2: under NaN boxing, [__JS_NewFloat64] maps every bit pattern that
    passes the header's NaN test to the one value [JS_NAN]
    ([0xfffffff600000000]); two NaN patterns therefore encode to the same
    value. *)
Theorem nan_boxing_canonicalizes_nan (d1 d2 : double) :
  is_double d1 ->
  is_double d2 ->
  Z.land d1 0x7fffffffffffffff > 0x7ff0000000000000 ->
  Z.land d2 0x7fffffffffffffff > 0x7ff0000000000000 ->
  NanBoxing.__JS_NewFloat64 d1 = NanBoxing.JS_NAN
  /\ NanBoxing.__JS_NewFloat64 d1 = NanBoxing.__JS_NewFloat64 d2
  /\ NanBoxing.JS_NAN = 0xfffffff600000000.
Proof.
  intros _ _ H1 H2.
  assert (E1 : u64_is_nan d1 = true).
  { unfold u64_is_nan. rewrite Z.gtb_ltb. apply Z.ltb_lt. lia. }
  assert (E2 : u64_is_nan d2 = true).
  { unfold u64_is_nan. rewrite Z.gtb_ltb. apply Z.ltb_lt. lia. }
  rewrite (nb_newfloat_nan d1 E1), (nb_newfloat_nan d2 E2).
  repeat split; reflexivity.
Qed.

Lemma nan_boxing_canonicalizes_nan_witness :
  is_double 0x7ff0000000000001
  /\ is_double 0xfff8000000000123
  /\ NanBoxing.__JS_NewFloat64 0x7ff0000000000001
     = NanBoxing.__JS_NewFloat64 0xfff8000000000123.
Proof.
  assert (Ha : is_double 0x7ff0000000000001) by (unfold is_double; lia).
  assert (Hb : is_double 0xfff8000000000123) by (unfold is_double; lia).
  split; [exact Ha | split; [exact Hb |]].
  refine (proj1 (proj2 (nan_boxing_canonicalizes_nan
                          0x7ff0000000000001 0xfff8000000000123 Ha Hb _ _)));
    vm_compute; reflexivity.
Defined.

(** C3: under NaN boxing every double encodes to a value that decodes as a
    float: [JS_TAG_IS_FLOAT64] holds of its tag, [JS_VALUE_GET_NORM_TAG] is
    [JS_TAG_FLOAT64], [JS_VALUE_HAS_REF_COUNT] is false, and the tag lies
    outside the range from [JS_TAG_FIRST] to [JS_TAG_FLOAT64] that the
    enumerated tags occupy. *)
Theorem nan_boxing_float_decodes_as_float (d : double) :
  is_double d ->
  let v := NanBoxing.__JS_NewFloat64 d in
  NanBoxing.JS_TAG_IS_FLOAT64 (NanBoxing.JS_VALUE_GET_TAG v) = true
  /\ NanBoxing.JS_VALUE_GET_NORM_TAG v = JS_TAG_FLOAT64
  /\ @JS_VALUE_HAS_REF_COUNT nan_boxing v = false
  /\ (NanBoxing.JS_VALUE_GET_TAG v < JS_TAG_FIRST
      \/ JS_TAG_FLOAT64 < NanBoxing.JS_VALUE_GET_TAG v)
  /\ ~ In (NanBoxing.JS_VALUE_GET_TAG v) enumerated_tags.
Proof.
  intros Hd v.
  pose proof (nb_float_tag_outside d Hd) as [Hi Hout]. fold v in Hi, Hout.
  assert (Hf : NanBoxing.JS_TAG_IS_FLOAT64 (NanBoxing.JS_VALUE_GET_TAG v) = true).
  { apply nb_is_float_spec; [assumption | lia]. }
  split; [exact Hf|]. split; [|split; [|split; [exact Hout|]]].
  - apply nan_boxing_float_norm_tag, Hd.
  - unfold JS_VALUE_HAS_REF_COUNT. cbn [JS_VALUE_GET_TAG nan_boxing].
    destruct (to_uint32 (NanBoxing.JS_VALUE_GET_TAG v)
              >=? to_uint32 JS_TAG_FIRST) eqn:E; [|reflexivity].
    apply (ref_count_test_spec _ Hi) in E.
    unfold JS_TAG_FIRST, JS_TAG_INT, JS_TAG_FLOAT64 in *. lia.
  - intros Hin.
    pose proof (enumerated_tags_range _ Hin) as Hr. lia.
Qed.

Lemma nan_boxing_float_decodes_as_float_witness :
  is_double 0x3ff0000000000000
  /\ NanBoxing.JS_VALUE_GET_NORM_TAG
       (NanBoxing.__JS_NewFloat64 0x3ff0000000000000) = JS_TAG_FLOAT64.
Proof.
  assert (Hd : is_double 0x3ff0000000000000) by (unfold is_double; lia).
  split; [exact Hd |].
  exact (proj1 (proj2 (nan_boxing_float_decodes_as_float _ Hd))).
Defined.

(** ** Round trips in the runnable layouts *)

Lemma non_float_tags_int32 (tag : Z) : In tag non_float_tags -> is_int32 tag.
Proof.
  intros H. apply enumerated_tags_int32.
  unfold enumerated_tags, inline_tags. unfold non_float_tags in H.
  rewrite in_app_iff in *. rewrite in_app_iff. tauto.
Qed.

(** C4, as stated, fails in the struct layout: the NaN doubles
    [0x7ff0000000000001] and [0x7ff8000000000000] are stored as they are
    and decode to two different representations. *)
Lemma struct_nan_not_canonicalized :
  double_is_nan 0x7ff0000000000001 = true
  /\ double_is_nan 0x7ff8000000000000 = true
  /\ StructLayout.JS_VALUE_GET_FLOAT64
       (StructLayout.__JS_NewFloat64 0x7ff0000000000001)
     = Some 0x7ff0000000000001
  /\ StructLayout.JS_VALUE_GET_FLOAT64
       (StructLayout.__JS_NewFloat64 0x7ff8000000000000)
     = Some 0x7ff8000000000000
  /\ StructLayout.JS_VALUE_GET_FLOAT64
       (StructLayout.__JS_NewFloat64 0x7ff0000000000001)
     <> StructLayout.JS_VALUE_GET_FLOAT64
          (StructLayout.__JS_NewFloat64 0x7ff8000000000000).
Proof. repeat split; try reflexivity. discriminate. Qed.

(** C4, amended: in the struct and in the NaN-boxed layout, [JS_MKVAL] with
    an enumerated non-float tag and a 32-bit payload gives back the tag
    through [JS_VALUE_GET_TAG] and the payload through [JS_VALUE_GET_INT],
    [JS_VALUE_GET_BOOL] and [JS_VALUE_GET_SHORT_BIG_INT]; a double that is
    not a NaN is read back unchanged in both layouts; a NaN double is read
    back as the canonical NaN in the NaN-boxed layout, and unchanged, bit for
    bit, in the struct layout. *)
Theorem encode_decode_round_trip (tag payload : Z) (d : double) :
  In tag non_float_tags ->
  is_int32 payload ->
  is_double d ->
  (NanBoxing.JS_VALUE_GET_TAG (NanBoxing.JS_MKVAL tag payload) = tag
   /\ NanBoxing.JS_VALUE_GET_INT (NanBoxing.JS_MKVAL tag payload) = payload
   /\ NanBoxing.JS_VALUE_GET_BOOL (NanBoxing.JS_MKVAL tag payload) = payload
   /\ NanBoxing.JS_VALUE_GET_SHORT_BIG_INT (NanBoxing.JS_MKVAL tag payload)
      = payload)
  /\ (StructLayout.JS_VALUE_GET_TAG (StructLayout.JS_MKVAL tag payload) = tag
      /\ StructLayout.JS_VALUE_GET_INT (StructLayout.JS_MKVAL tag payload)
         = Some payload
      /\ StructLayout.JS_VALUE_GET_BOOL (StructLayout.JS_MKVAL tag payload)
         = Some payload
      /\ StructLayout.JS_VALUE_GET_SHORT_BIG_INT
           (StructLayout.JS_MKVAL tag payload) = Some payload)
  /\ (double_is_nan d = false ->
      NanBoxing.JS_VALUE_GET_FLOAT64 (NanBoxing.__JS_NewFloat64 d) = d)
  /\ (double_is_nan d = true ->
      NanBoxing.JS_VALUE_GET_FLOAT64 (NanBoxing.__JS_NewFloat64 d)
      = canonical_nan)
  /\ StructLayout.JS_VALUE_GET_FLOAT64 (StructLayout.__JS_NewFloat64 d)
     = Some d.
Proof.
  intros Htag Hp Hd.
  pose proof (non_float_tags_int32 tag Htag) as Hi.
  split; [|split; [|split; [|split]]].
  - unfold NanBoxing.JS_VALUE_GET_BOOL, NanBoxing.JS_VALUE_GET_SHORT_BIG_INT.
    fold (NanBoxing.JS_VALUE_GET_INT (NanBoxing.JS_MKVAL tag payload)).
    rewrite nb_get_tag_mkval, nb_get_int_mkval.
    rewrite (to_int32_id tag Hi), (to_int32_id payload Hp). repeat split.
  - rewrite (st_get_tag_mkval tag payload Hi).
    unfold StructLayout.JS_VALUE_GET_INT, StructLayout.JS_VALUE_GET_BOOL,
      StructLayout.JS_VALUE_GET_SHORT_BIG_INT. cbn.
    rewrite (to_int32_id payload Hp). repeat split.
  - intros Hn. rewrite <- (u64_is_nan_double_is_nan d Hd) in Hn.
    apply nb_get_float64_newfloat; assumption.
  - intros Hn. rewrite <- (u64_is_nan_double_is_nan d Hd) in Hn.
    apply nb_get_float64_nan; assumption.
  - reflexivity.
Qed.

Lemma encode_decode_round_trip_witness :
  In JS_TAG_SHORT_BIG_INT non_float_tags
  /\ is_int32 (-5)
  /\ is_double 0xc000000000000000
  /\ NanBoxing.JS_VALUE_GET_SHORT_BIG_INT
       (NanBoxing.JS_MKVAL JS_TAG_SHORT_BIG_INT (-5)) = -5
  /\ NanBoxing.JS_VALUE_GET_FLOAT64
       (NanBoxing.__JS_NewFloat64 0xc000000000000000) = 0xc000000000000000.
Proof.
  assert (Ht : In JS_TAG_SHORT_BIG_INT non_float_tags).
  { cbv [non_float_tags ref_counted_tags inline_non_float_tags app In]. tauto. }
  assert (Hp : is_int32 (-5)) by (unfold is_int32, INT32_MIN, INT32_MAX; lia).
  assert (Hd : is_double 0xc000000000000000) by (unfold is_double; lia).
  pose proof (encode_decode_round_trip JS_TAG_SHORT_BIG_INT (-5)
                0xc000000000000000 Ht Hp Hd)
    as ((_ & _ & _ & Hs) & _ & Hf & _).
  exact (conj Ht (conj Hp (conj Hd (conj Hs (Hf eq_refl))))).
Defined.

(** ** Agreement between the layouts *)

Lemma nb_norm_tag_mkval (tag val : Z) :
  In tag enumerated_tags ->
  NanBoxing.JS_VALUE_GET_NORM_TAG (NanBoxing.JS_MKVAL tag val) = tag.
Proof.
  intros H. unfold NanBoxing.JS_VALUE_GET_NORM_TAG.
  rewrite nb_get_tag_mkval.
  each_tag H ltac:(vm_compute; reflexivity).
Qed.

Lemma inline_tags_range (tag : Z) : In tag inline_tags -> 0 <= tag < 16.
Proof.
  intros H.
  each_tag H ltac:(vm_compute; split; [discriminate | reflexivity]).
Qed.

Lemma to_intptr_id (w z : Z) :
  0 < w -> - 2 ^ (w - 1) <= z < 2 ^ (w - 1) -> Checked.to_intptr w z = z.
Proof.
  intros Hw Hz. unfold Checked.to_intptr.
  replace (2 ^ w) with (2 * 2 ^ (w - 1)).
  - rewrite Z.mod_small; lia.
  - rewrite <- (Z.pow_succ_r 2 (w - 1)) by lia. f_equal. lia.
Qed.

Lemma checked_mkval_inline (w tag val : Z) :
  36 <= w -> 0 <= tag < 16 -> is_int32 val ->
  Checked.JS_MKVAL w tag val = val * 2 ^ 4 + tag.
Proof.
  intros Hw Ht Hv.
  assert (Hpow : 2 ^ 35 <= 2 ^ (w - 1)) by (apply Z.pow_le_mono_r; lia).
  unfold is_int32, INT32_MIN, INT32_MAX in Hv.
  unfold Checked.JS_MKVAL.
  rewrite (to_intptr_id w val) by lia.
  rewrite Z.shiftl_mul_pow2 by lia.
  rewrite (to_intptr_id w (val * 2 ^ 4)) by lia.
  rewrite Z.lor_comm, lor_shiftl_low by lia.
  apply to_intptr_id; lia.
Qed.

Lemma checked_decode_inline (w tag val : Z) :
  36 <= w -> 0 <= tag < 16 -> is_int32 val ->
  Checked.JS_VALUE_GET_NORM_TAG (Checked.JS_MKVAL w tag val) = tag
  /\ Checked.JS_VALUE_GET_TAG (Checked.JS_MKVAL w tag val) = tag
  /\ Checked.JS_VALUE_GET_INT (Checked.JS_MKVAL w tag val) = val.
Proof.
  intros Hw Ht Hv.
  unfold Checked.JS_VALUE_GET_NORM_TAG, Checked.JS_VALUE_GET_TAG,
    Checked.JS_VALUE_GET_INT.
  rewrite (checked_mkval_inline w tag val Hw Ht Hv).
  change 15 with (Z.ones 4). rewrite Z.land_ones by lia.
  rewrite Z.shiftr_div_pow2 by lia.
  repeat split; solve_div_mod.
Qed.

Lemma checked_norm_tag_nonneg (v : Checked.JSValue) :
  0 <= Checked.JS_VALUE_GET_NORM_TAG v.
Proof.
  unfold Checked.JS_VALUE_GET_NORM_TAG.
  change 15 with (Z.ones 4). rewrite Z.land_ones by lia. solve_div_mod.
Qed.

Lemma int_of_double_range (d : double) (i : Z) :
  int_of_double d = Some i -> is_int32 i.
Proof.
  unfold int_of_double, is_int32. cbv zeta.
  destruct (double_exponent d =? 2047); [discriminate|].
  match goal with
  | |- (if (INT32_MIN <=? ?v) && (?v <=? INT32_MAX) then _ else _) = _ -> _ =>
      generalize v
  end.
  intros v.
  destruct (INT32_MIN <=? v) eqn:E1; [|discriminate].
  destruct (v <=? INT32_MAX) eqn:E2; [|discriminate].
  cbn [andb]. intros H. injection H as <-.
  apply Z.leb_le in E1. apply Z.leb_le in E2. split; assumption.
Qed.

Lemma checked_get_float64_mkval (w val : Z) :
  36 <= w -> is_int32 val ->
  Checked.JS_VALUE_GET_FLOAT64 (Checked.JS_MKVAL w JS_TAG_FLOAT64 val)
  = double_of_Z val.
Proof.
  intros Hw Hv. unfold Checked.JS_VALUE_GET_FLOAT64.
  rewrite (checked_mkval_inline w JS_TAG_FLOAT64 val Hw) by
    (assumption || (unfold JS_TAG_FLOAT64; lia)).
  rewrite Z.shiftr_div_pow2 by lia. f_equal.
  unfold JS_TAG_FLOAT64. Z.div_mod_to_equations. lia.
Qed.

Lemma nb_mkval_float_tag_reads_nan (val : Z) :
  double_is_nan
    (NanBoxing.JS_VALUE_GET_FLOAT64 (NanBoxing.JS_MKVAL JS_TAG_FLOAT64 val))
  = true.
Proof.
  assert (Hd : is_double (NanBoxing.JS_VALUE_GET_FLOAT64
                            (NanBoxing.JS_MKVAL JS_TAG_FLOAT64 val))).
  { unfold NanBoxing.JS_VALUE_GET_FLOAT64, is_double, to_uint64.
    apply Z.mod_pos_bound. lia. }
  rewrite <- (u64_is_nan_double_is_nan _ Hd), u64_is_nan_spec.
  unfold NanBoxing.JS_VALUE_GET_FLOAT64.
  rewrite nb_addend_shifted, nb_mkval_eq. unfold JS_TAG_FLOAT64.
  solve_div_mod.
Qed.

Lemma double_of_int32_not_nan (val : Z) :
  is_int32 val -> double_is_nan (double_of_Z val) = false.
Proof.
  intros Hv.
  assert (Ha : Z.abs val < 2 ^ 64)
    by (unfold is_int32, INT32_MIN, INT32_MAX in Hv; lia).
  rewrite <- (u64_is_nan_double_is_nan _ (double_of_Z_is_double val Ha)).
  apply double_of_Z_not_nan, Ha.
Qed.

(** C5, as stated, fails for the checked encoding.  With 64-bit pointers,
    [JS_MKVAL(JS_TAG_OBJECT, 5)] reads back tag [15] and payload [-1], where
    the struct and NaN-boxed encodings read back [JS_TAG_OBJECT] and [5];
    with 32-bit pointers the payload [2^27] of [JS_MKVAL(JS_TAG_INT, 2^27)]
    reads back as [-2^27].  On the float tag, [JS_VALUE_GET_FLOAT64] of
    [JS_MKVAL(JS_TAG_FLOAT64, 1)] is 1.0 where the NaN-boxed encoding reads
    the NaN [0x7ff8001200000001], and the double 1.5, which is not a NaN,
    reads back as 1.0 from [__JS_NewFloat64] where the struct and NaN-boxed
    encodings read back 1.5. *)
Lemma checked_layout_disagrees :
  In JS_TAG_OBJECT enumerated_tags
  /\ is_int32 5
  /\ Checked.JS_VALUE_GET_NORM_TAG (Checked.JS_MKVAL 64 JS_TAG_OBJECT 5) = 15
  /\ NanBoxing.JS_VALUE_GET_NORM_TAG (NanBoxing.JS_MKVAL JS_TAG_OBJECT 5)
     = JS_TAG_OBJECT
  /\ StructLayout.JS_VALUE_GET_NORM_TAG (StructLayout.JS_MKVAL JS_TAG_OBJECT 5)
     = JS_TAG_OBJECT
  /\ Checked.JS_VALUE_GET_INT (Checked.JS_MKVAL 64 JS_TAG_OBJECT 5) = -1
  /\ NanBoxing.JS_VALUE_GET_INT (NanBoxing.JS_MKVAL JS_TAG_OBJECT 5) = 5
  /\ StructLayout.JS_VALUE_GET_INT (StructLayout.JS_MKVAL JS_TAG_OBJECT 5)
     = Some 5
  /\ Checked.JS_VALUE_GET_INT (Checked.JS_MKVAL 32 JS_TAG_INT (2 ^ 27))
     = - 2 ^ 27
  /\ NanBoxing.JS_VALUE_GET_INT (NanBoxing.JS_MKVAL JS_TAG_INT (2 ^ 27))
     = 2 ^ 27
  /\ Checked.JS_VALUE_GET_NORM_TAG (Checked.JS_MKVAL 64 JS_TAG_OBJECT 5)
     <> NanBoxing.JS_VALUE_GET_NORM_TAG (NanBoxing.JS_MKVAL JS_TAG_OBJECT 5)
  /\ Checked.JS_VALUE_GET_NORM_TAG (Checked.JS_MKVAL 64 JS_TAG_OBJECT 5)
     <> StructLayout.JS_VALUE_GET_NORM_TAG
          (StructLayout.JS_MKVAL JS_TAG_OBJECT 5)
  /\ Checked.JS_VALUE_GET_FLOAT64 (Checked.JS_MKVAL 64 JS_TAG_FLOAT64 1)
     = 0x3ff0000000000000
  /\ NanBoxing.JS_VALUE_GET_FLOAT64 (NanBoxing.JS_MKVAL JS_TAG_FLOAT64 1)
     = 0x7ff8001200000001
  /\ double_is_nan 0x3ff8000000000000 = false
  /\ option_map Checked.JS_VALUE_GET_FLOAT64
       (Checked.__JS_NewFloat64 64 0x3ff8000000000000)
     = Some 0x3ff0000000000000
  /\ NanBoxing.JS_VALUE_GET_FLOAT64
       (NanBoxing.__JS_NewFloat64 0x3ff8000000000000)
     = 0x3ff8000000000000
  /\ StructLayout.JS_VALUE_GET_FLOAT64
       (StructLayout.__JS_NewFloat64 0x3ff8000000000000)
     = Some 0x3ff8000000000000.
Proof.
  split.
  - cbv [enumerated_tags ref_counted_tags app In]. tauto.
  - split; [unfold is_int32, INT32_MIN, INT32_MAX; lia|].
    repeat split; vm_compute; (reflexivity || discriminate).
Qed.

(** C5, amended: the struct and the NaN-boxed encodings agree on
    [JS_VALUE_GET_NORM_TAG] and on the integer payload accessors of
    [JS_MKVAL(tag, payload)] for every enumerated tag and 32-bit payload,
    and on a double built by [__JS_NewFloat64] (its normalized tag, and its
    value unless it is a NaN).  The checked encoding, for a pointer width of
    36 bits or more, agrees with both on the normalized tag and the integer
    payload accessors of [JS_MKVAL(tag, payload)] for the inline tags.  For
    a reference-counted tag its normalized tag is never the tag.  It does
    not agree on floats: [JS_VALUE_GET_FLOAT64] of
    [JS_MKVAL(JS_TAG_FLOAT64, payload)] is the double [(double)payload], not
    a NaN, where the NaN-boxed encoding reads a NaN; and
    [__JS_NewFloat64(d)], defined where [(int)d] is, has the tag
    [JS_TAG_FLOAT64] and reads back as [(double)(int)d]. *)
Theorem layouts_agree_on_decoding (w tag payload : Z) (d : double) :
  In tag enumerated_tags ->
  is_int32 payload ->
  is_double d ->
  36 <= w ->
  (StructLayout.JS_VALUE_GET_NORM_TAG (StructLayout.JS_MKVAL tag payload)
   = NanBoxing.JS_VALUE_GET_NORM_TAG (NanBoxing.JS_MKVAL tag payload)
   /\ StructLayout.JS_VALUE_GET_INT (StructLayout.JS_MKVAL tag payload)
      = Some (NanBoxing.JS_VALUE_GET_INT (NanBoxing.JS_MKVAL tag payload))
   /\ StructLayout.JS_VALUE_GET_BOOL (StructLayout.JS_MKVAL tag payload)
      = Some (NanBoxing.JS_VALUE_GET_BOOL (NanBoxing.JS_MKVAL tag payload))
   /\ StructLayout.JS_VALUE_GET_SHORT_BIG_INT
        (StructLayout.JS_MKVAL tag payload)
      = Some (NanBoxing.JS_VALUE_GET_SHORT_BIG_INT
                (NanBoxing.JS_MKVAL tag payload)))
  /\ (In tag inline_tags ->
      Checked.JS_VALUE_GET_NORM_TAG (Checked.JS_MKVAL w tag payload)
      = NanBoxing.JS_VALUE_GET_NORM_TAG (NanBoxing.JS_MKVAL tag payload)
      /\ Checked.JS_VALUE_GET_INT (Checked.JS_MKVAL w tag payload)
         = NanBoxing.JS_VALUE_GET_INT (NanBoxing.JS_MKVAL tag payload)
      /\ Checked.JS_VALUE_GET_BOOL (Checked.JS_MKVAL w tag payload)
         = NanBoxing.JS_VALUE_GET_BOOL (NanBoxing.JS_MKVAL tag payload)
      /\ Checked.JS_VALUE_GET_SHORT_BIG_INT (Checked.JS_MKVAL w tag payload)
         = NanBoxing.JS_VALUE_GET_SHORT_BIG_INT
             (NanBoxing.JS_MKVAL tag payload))
  /\ (In tag ref_counted_tags ->
      Checked.JS_VALUE_GET_NORM_TAG (Checked.JS_MKVAL w tag payload)
      <> NanBoxing.JS_VALUE_GET_NORM_TAG (NanBoxing.JS_MKVAL tag payload))
  /\ StructLayout.JS_VALUE_GET_NORM_TAG (StructLayout.__JS_NewFloat64 d)
     = NanBoxing.JS_VALUE_GET_NORM_TAG (NanBoxing.__JS_NewFloat64 d)
  /\ (double_is_nan d = false ->
      StructLayout.JS_VALUE_GET_FLOAT64 (StructLayout.__JS_NewFloat64 d)
      = Some (NanBoxing.JS_VALUE_GET_FLOAT64 (NanBoxing.__JS_NewFloat64 d)))
  /\ (Checked.JS_VALUE_GET_FLOAT64 (Checked.JS_MKVAL w JS_TAG_FLOAT64 payload)
      = double_of_Z payload
      /\ double_is_nan (double_of_Z payload) = false
      /\ double_is_nan
           (NanBoxing.JS_VALUE_GET_FLOAT64
              (NanBoxing.JS_MKVAL JS_TAG_FLOAT64 payload)) = true)
  /\ (option_map Checked.JS_VALUE_GET_NORM_TAG (Checked.__JS_NewFloat64 w d)
      = option_map (fun _ => JS_TAG_FLOAT64) (int_of_double d)
      /\ option_map Checked.JS_VALUE_GET_FLOAT64 (Checked.__JS_NewFloat64 w d)
         = option_map double_of_Z (int_of_double d)).
Proof.
  intros Htag Hp Hd Hw.
  pose proof (enumerated_tags_int32 tag Htag) as Hi.
  assert (Hnb : NanBoxing.JS_VALUE_GET_INT (NanBoxing.JS_MKVAL tag payload)
                = payload).
  { rewrite nb_get_int_mkval. apply to_int32_id, Hp. }
  unfold NanBoxing.JS_VALUE_GET_BOOL, NanBoxing.JS_VALUE_GET_SHORT_BIG_INT.
  fold (NanBoxing.JS_VALUE_GET_INT (NanBoxing.JS_MKVAL tag payload)).
  rewrite Hnb, (nb_norm_tag_mkval tag payload Htag).
  split; [|split; [|split; [|split; [|split; [|split]]]]].
  - unfold StructLayout.JS_VALUE_GET_NORM_TAG.
    rewrite (st_get_tag_mkval tag payload Hi).
    unfold StructLayout.JS_VALUE_GET_INT, StructLayout.JS_VALUE_GET_BOOL,
      StructLayout.JS_VALUE_GET_SHORT_BIG_INT. cbn.
    rewrite (to_int32_id payload Hp). repeat split.
  - intros Hin.
    pose proof (checked_decode_inline w tag payload Hw
                  (inline_tags_range tag Hin) Hp) as (Hn & _ & Hg).
    unfold Checked.JS_VALUE_GET_SHORT_BIG_INT, Checked.JS_VALUE_GET_BOOL.
    fold (Checked.JS_VALUE_GET_INT (Checked.JS_MKVAL w tag payload)).
    rewrite Hn, Hg. repeat split.
  - intros Hin Heq.
    pose proof (checked_norm_tag_nonneg (Checked.JS_MKVAL w tag payload)) as Hnn.
    rewrite Heq in Hnn.
    apply (enumerated_ref_counted tag Htag) in Hin.
    unfold JS_TAG_INT in Hin. lia.
  - pose proof (nan_boxing_float_norm_tag d Hd) as Hn. rewrite Hn. reflexivity.
  - intros Hn. rewrite <- (u64_is_nan_double_is_nan d Hd) in Hn.
    rewrite (nb_get_float64_newfloat d Hd Hn). reflexivity.
  - split; [apply checked_get_float64_mkval; assumption|].
    split; [apply double_of_int32_not_nan, Hp|].
    apply nb_mkval_float_tag_reads_nan.
  - unfold Checked.__JS_NewFloat64.
    destruct (int_of_double d) as [i|] eqn:Ei; cbn [option_map];
      [|split; reflexivity].
    pose proof (int_of_double_range d i Ei) as Hir.
    assert (Ht8 : 0 <= JS_TAG_FLOAT64 < 16) by (unfold JS_TAG_FLOAT64; lia).
    destruct (checked_decode_inline w JS_TAG_FLOAT64 i Hw Ht8 Hir)
      as (Hn & _ & _).
    rewrite Hn, (checked_get_float64_mkval w i Hw Hir). split; reflexivity.
Qed.

Lemma layouts_agree_on_decoding_witness :
  In JS_TAG_BOOL enumerated_tags
  /\ is_int32 1
  /\ is_double 0x4045000000000000
  /\ 36 <= 64
  /\ StructLayout.JS_VALUE_GET_NORM_TAG (StructLayout.JS_MKVAL JS_TAG_BOOL 1)
     = NanBoxing.JS_VALUE_GET_NORM_TAG (NanBoxing.JS_MKVAL JS_TAG_BOOL 1)
  /\ Checked.JS_VALUE_GET_NORM_TAG (Checked.JS_MKVAL 64 JS_TAG_BOOL 1)
     = NanBoxing.JS_VALUE_GET_NORM_TAG (NanBoxing.JS_MKVAL JS_TAG_BOOL 1).
Proof.
  assert (Ht : In JS_TAG_BOOL enumerated_tags).
  { cbv [enumerated_tags ref_counted_tags inline_tags inline_non_float_tags
      app In]. tauto. }
  assert (Hi : In JS_TAG_BOOL inline_tags).
  { cbv [inline_tags inline_non_float_tags app In]. tauto. }
  assert (Hp : is_int32 1) by (unfold is_int32, INT32_MIN, INT32_MAX; lia).
  assert (Hd : is_double 0x4045000000000000) by (unfold is_double; lia).
  assert (Hw : 36 <= 64) by lia.
  pose proof (layouts_agree_on_decoding 64 JS_TAG_BOOL 1 0x4045000000000000
                Ht Hp Hd Hw) as ((Hs & _) & Hc & _).
  exact (conj Ht (conj Hp (conj Hd (conj Hw (conj Hs (proj1 (Hc Hi))))))).
Defined.

(** ** The float test of the NaN-boxed layout *)

Lemma non_float_tag_values_spec (tag : Z) :
  In tag non_float_tag_values <-> JS_TAG_FIRST <= tag < JS_TAG_FLOAT64.
Proof.
  unfold non_float_tag_values. rewrite in_map_iff. split.
  - intros (i & <- & Hi). apply in_seq in Hi.
    unfold JS_TAG_FIRST, JS_TAG_FLOAT64 in *. lia.
  - intros H. exists (Z.to_nat (tag - JS_TAG_FIRST)). split.
    + unfold JS_TAG_FIRST in *. lia.
    + apply in_seq. unfold JS_TAG_FIRST, JS_TAG_FLOAT64 in *. lia.
Qed.

(** The enumeration names 14 of the 17 non-float tag values; [-6], [-5] and
    [-4] are the ones it leaves out. *)
Remark unassigned_non_float_tag_values :
  length non_float_tags = 14%nat
  /\ filter (fun t => negb (existsb (Z.eqb t) non_float_tags))
            non_float_tag_values = [-6; -5; -4].
Proof. split; reflexivity. Qed.

Lemma non_float_tag_value_count_eq :
  non_float_tag_value_count = JS_TAG_FLOAT64 - JS_TAG_FIRST.
Proof. reflexivity. Qed.

(** C6, as stated, fails: the enumeration has 14 non-float tags, and
    [JS_TAG_EXCEPTION], which is not the float64 tag, lies at unsigned
    distance 15 from [JS_TAG_FIRST], more than that count; yet
    [JS_TAG_IS_FLOAT64] is false on it. *)
Lemma is_float_threshold_is_not_the_tag_count :
  Z.of_nat (length non_float_tags) = 14
  /\ tag_distance JS_TAG_EXCEPTION = 15
  /\ NanBoxing.JS_TAG_IS_FLOAT64 JS_TAG_EXCEPTION = false
  /\ ~ (NanBoxing.JS_TAG_IS_FLOAT64 JS_TAG_EXCEPTION = true
        <-> JS_TAG_EXCEPTION = JS_TAG_FLOAT64
            \/ tag_distance JS_TAG_EXCEPTION
               > Z.of_nat (length non_float_tags)).
Proof.
  repeat split.
  intros [_ H].
  assert (Hc : NanBoxing.JS_TAG_IS_FLOAT64 JS_TAG_EXCEPTION = true).
  { apply H. right. reflexivity. }
  discriminate Hc.
Qed.

(** C6, amended: under NaN boxing, [JS_TAG_IS_FLOAT64] holds of a tag
    exactly when it is [JS_TAG_FLOAT64] or its unsigned distance from
    [JS_TAG_FIRST] exceeds [JS_TAG_FLOAT64 - JS_TAG_FIRST = 17], the number
    of tag values from [JS_TAG_FIRST] to [JS_TAG_SHORT_BIG_INT], which are
    exactly the values it rejects (the 14 enumerated non-float tags and the
    unassigned [-6], [-5], [-4]); it is false on every enumerated tag from
    [JS_TAG_BIG_INT] to [JS_TAG_SHORT_BIG_INT] and true on
    [JS_TAG_FLOAT64]. *)
Theorem nan_boxing_is_float_threshold (tag : Z) :
  is_int32 tag ->
  (NanBoxing.JS_TAG_IS_FLOAT64 tag = true
   <-> tag = JS_TAG_FLOAT64 \/ tag_distance tag > non_float_tag_value_count)
  /\ (NanBoxing.JS_TAG_IS_FLOAT64 tag = false
      <-> In tag non_float_tag_values)
  /\ non_float_tag_value_count = 17
  /\ (In tag non_float_tags -> NanBoxing.JS_TAG_IS_FLOAT64 tag = false)
  /\ (JS_TAG_BIG_INT <= tag <= JS_TAG_SHORT_BIG_INT ->
      NanBoxing.JS_TAG_IS_FLOAT64 tag = false)
  /\ NanBoxing.JS_TAG_IS_FLOAT64 JS_TAG_FLOAT64 = true.
Proof.
  intros Hi.
  pose proof (nb_is_float_spec tag Hi) as Hs.
  assert (Hf : NanBoxing.JS_TAG_IS_FLOAT64 tag = false
               <-> JS_TAG_FIRST <= tag < JS_TAG_FLOAT64).
  { destruct (NanBoxing.JS_TAG_IS_FLOAT64 tag).
    - split; [discriminate | intros H; exfalso].
      assert (true = true) as Ht by reflexivity. apply Hs in Ht. lia.
    - split; [intros _ | reflexivity].
      destruct (Z.lt_ge_cases tag JS_TAG_FIRST) as [Hlt | Hge];
        [assert (false = true) as Hc by (apply Hs; left; exact Hlt);
         discriminate|].
      destruct (Z.lt_ge_cases tag JS_TAG_FLOAT64) as [Hlt | Hge'];
        [lia|].
      assert (false = true) as Hc by (apply Hs; right; lia). discriminate. }
  split; [|split; [|split; [|split; [|split]]]].
  - rewrite Hs, non_float_tag_value_count_eq. unfold tag_distance.
    unfold JS_TAG_FIRST, JS_TAG_FLOAT64. solve_div_mod.
  - rewrite Hf. symmetry. apply non_float_tag_values_spec.
  - reflexivity.
  - intros Hin. apply Hf.
    each_tag Hin ltac:(vm_compute; split; [discriminate | reflexivity]).
  - intros Hr. apply Hf.
    unfold JS_TAG_BIG_INT, JS_TAG_SHORT_BIG_INT, JS_TAG_FIRST, JS_TAG_FLOAT64
      in *. lia.
  - reflexivity.
Qed.

Lemma nan_boxing_is_float_threshold_witness :
  is_int32 JS_TAG_EXCEPTION
  /\ tag_distance JS_TAG_EXCEPTION = 15
  /\ NanBoxing.JS_TAG_IS_FLOAT64 JS_TAG_EXCEPTION = false.
Proof.
  assert (Hi : is_int32 JS_TAG_EXCEPTION).
  { unfold is_int32, INT32_MIN, INT32_MAX, JS_TAG_EXCEPTION. lia. }
  pose proof (nan_boxing_is_float_threshold JS_TAG_EXCEPTION Hi)
    as (_ & _ & _ & _ & Hr & _).
  refine (conj Hi (conj eq_refl (Hr _))).
  unfold JS_TAG_BIG_INT, JS_TAG_EXCEPTION, JS_TAG_SHORT_BIG_INT. lia.
Defined.

(** ** Construction from 64-bit and unsigned integers *)

Lemma int64_abs_bound (v : Z) : is_int64 v -> Z.abs v < 2 ^ 64.
Proof. unfold is_int64, INT64_MIN, INT64_MAX. lia. Qed.

Lemma uint32_abs_bound (v : Z) : is_uint32 v -> Z.abs v < 2 ^ 64.
Proof. unfold is_uint32, UINT32_MAX. lia. Qed.

Lemma nb_float64_of_double_of_Z (v : Z) :
  Z.abs v < 2 ^ 64 ->
  nan_boxing_float64_of (NanBoxing.__JS_NewFloat64 (double_of_Z v))
    (double_of_Z v).
Proof.
  intros Hv. split.
  - apply nan_boxing_float_norm_tag, double_of_Z_is_double, Hv.
  - apply nb_get_float64_newfloat;
      [apply double_of_Z_is_double | apply double_of_Z_not_nan]; exact Hv.
Qed.

Lemma nb_float_is_not_int (d : double) (val : Z) :
  is_double d ->
  NanBoxing.__JS_NewFloat64 d <> NanBoxing.JS_MKVAL JS_TAG_INT val.
Proof.
  intros Hd Heq.
  pose proof (nb_float_tag_outside d Hd) as [_ Hout].
  rewrite Heq, nb_get_tag_mkval in Hout.
  vm_compute in Hout. destruct Hout; discriminate.
Qed.

Lemma range_test_int64 (v : Z) :
  ((v >=? INT32_MIN) && (v <=? INT32_MAX)) = true <-> in_int32_range v.
Proof.
  unfold in_int32_range. rewrite andb_true_iff, Z.geb_le, Z.leb_le. tauto.
Qed.

Lemma new_int64_in_range {L : Layout} (ctx : JSContext) (v : Z) :
  in_int32_range v -> JS_NewInt64 ctx v = JS_MKVAL JS_TAG_INT v.
Proof.
  intros H. unfold JS_NewInt64.
  replace ((v >=? INT32_MIN) && (v <=? INT32_MAX)) with true
    by (symmetry; apply range_test_int64, H).
  unfold JS_NewInt32. f_equal. apply to_int32_id, H.
Qed.

Lemma new_int64_out_of_range {L : Layout} (ctx : JSContext) (v : Z) :
  ~ in_int32_range v -> JS_NewInt64 ctx v = __JS_NewFloat64 (double_of_Z v).
Proof.
  intros H. unfold JS_NewInt64.
  destruct ((v >=? INT32_MIN) && (v <=? INT32_MAX)) eqn:E.
  - apply range_test_int64 in E. contradiction.
  - reflexivity.
Qed.

Lemma new_uint32_in_range {L : Layout} (ctx : JSContext) (v : Z) :
  is_uint32 v -> v <= INT32_MAX -> JS_NewUint32 ctx v = JS_MKVAL JS_TAG_INT v.
Proof.
  intros Hu H. unfold JS_NewUint32.
  replace (v <=? INT32_MAX) with true by (symmetry; apply Z.leb_le, H).
  unfold JS_NewInt32. f_equal. apply to_int32_id.
  unfold is_uint32, is_int32, INT32_MIN, INT32_MAX in *. lia.
Qed.

Lemma new_uint32_out_of_range {L : Layout} (ctx : JSContext) (v : Z) :
  ~ v <= INT32_MAX -> JS_NewUint32 ctx v = __JS_NewFloat64 (double_of_Z v).
Proof.
  intros H. unfold JS_NewUint32.
  destruct (Z.leb_spec v INT32_MAX) as [Hle | Hgt]; [contradiction|].
  reflexivity.
Qed.

(** C7: in both runnable layouts, [JS_NewInt64] returns the inline integer
    [JS_MKVAL(JS_TAG_INT, v)] exactly when [v] is in the [int32_t] range and
    otherwise a value that decodes as the double [(double)v]; [JS_NewUint32]
    does the same with the test [v <= INT32_MAX]. *)
Theorem new_int64_selects_representation (ctx : JSContext) (v u : Z) :
  is_int64 v ->
  is_uint32 u ->
  ((@JS_NewInt64 nan_boxing ctx v = JS_MKVAL JS_TAG_INT v
    <-> INT32_MIN <= v <= INT32_MAX)
   /\ (~ INT32_MIN <= v <= INT32_MAX ->
       nan_boxing_float64_of (@JS_NewInt64 nan_boxing ctx v) (double_of_Z v)))
  /\ ((@JS_NewInt64 struct_layout ctx v = JS_MKVAL JS_TAG_INT v
       <-> INT32_MIN <= v <= INT32_MAX)
      /\ (~ INT32_MIN <= v <= INT32_MAX ->
          struct_float64_of (@JS_NewInt64 struct_layout ctx v)
            (double_of_Z v)))
  /\ ((@JS_NewUint32 nan_boxing ctx u = JS_MKVAL JS_TAG_INT u
       <-> u <= INT32_MAX)
      /\ (~ u <= INT32_MAX ->
          nan_boxing_float64_of (@JS_NewUint32 nan_boxing ctx u)
            (double_of_Z u)))
  /\ ((@JS_NewUint32 struct_layout ctx u = JS_MKVAL JS_TAG_INT u
       <-> u <= INT32_MAX)
      /\ (~ u <= INT32_MAX ->
          struct_float64_of (@JS_NewUint32 struct_layout ctx u)
            (double_of_Z u))).
Proof.
  intros Hv Hu.
  pose proof (int64_abs_bound v Hv) as Hva.
  pose proof (uint32_abs_bound u Hu) as Hua.
  fold (in_int32_range v).
  split; [|split; [|split]]; split.
  - split; [|apply new_int64_in_range].
    intros Heq. destruct (range_test_int64 v) as [Ht _].
    destruct ((v >=? INT32_MIN) && (v <=? INT32_MAX)) eqn:E;
      [apply Ht; reflexivity|].
    exfalso. unfold JS_NewInt64 in Heq. rewrite E in Heq.
    apply (nb_float_is_not_int (double_of_Z v) v);
      [apply double_of_Z_is_double, Hva | exact Heq].
  - intros Hn. rewrite (new_int64_out_of_range ctx v Hn).
    apply nb_float64_of_double_of_Z, Hva.
  - split; [|apply new_int64_in_range].
    intros Heq. destruct (range_test_int64 v) as [Ht _].
    destruct ((v >=? INT32_MIN) && (v <=? INT32_MAX)) eqn:E;
      [apply Ht; reflexivity|].
    exfalso. unfold JS_NewInt64 in Heq. rewrite E in Heq. discriminate Heq.
  - intros Hn. rewrite (new_int64_out_of_range ctx v Hn).
    split; reflexivity.
  - split; [|apply new_uint32_in_range; exact Hu].
    intros Heq. destruct (u <=? INT32_MAX) eqn:E;
      [apply Z.leb_le, E|].
    exfalso. unfold JS_NewUint32 in Heq. rewrite E in Heq.
    apply (nb_float_is_not_int (double_of_Z u) u);
      [apply double_of_Z_is_double, Hua | exact Heq].
  - intros Hn. rewrite (new_uint32_out_of_range ctx u Hn).
    apply nb_float64_of_double_of_Z, Hua.
  - split; [|apply new_uint32_in_range; exact Hu].
    intros Heq. destruct (u <=? INT32_MAX) eqn:E;
      [apply Z.leb_le, E|].
    exfalso. unfold JS_NewUint32 in Heq. rewrite E in Heq. discriminate Heq.
  - intros Hn. rewrite (new_uint32_out_of_range ctx u Hn).
    split; reflexivity.
Qed.

Lemma new_int64_selects_representation_witness :
  is_int64 (2 ^ 31)
  /\ is_uint32 7
  /\ nan_boxing_float64_of (@JS_NewInt64 nan_boxing 0 (2 ^ 31))
       0x41e0000000000000
  /\ struct_float64_of (@JS_NewInt64 struct_layout 0 (2 ^ 31))
       0x41e0000000000000
  /\ @JS_NewUint32 nan_boxing 0 7 = JS_MKVAL JS_TAG_INT 7.
Proof.
  assert (Hv : is_int64 (2 ^ 31)).
  { unfold is_int64, INT64_MIN, INT64_MAX. lia. }
  assert (Hu : is_uint32 7) by (unfold is_uint32, UINT32_MAX; lia).
  assert (Hn : ~ INT32_MIN <= 2 ^ 31 <= INT32_MAX).
  { unfold INT32_MIN, INT32_MAX. lia. }
  assert (Hi : 7 <= INT32_MAX) by (unfold INT32_MAX; lia).
  pose proof (new_int64_selects_representation 0 (2 ^ 31) 7 Hv Hu)
    as ((_ & Hnb) & (_ & Hst) & (Hun & _) & _).
  exact (conj Hv (conj Hu (conj (Hnb Hn) (conj (Hst Hn) (proj2 Hun Hi))))).
Defined.

(** ** The classifiers *)

Lemma classify_nb_inline (v : NanBoxing.JSValue) (k : Z) :
  NanBoxing.JS_VALUE_GET_TAG v = k ->
  @classify nan_boxing v =
  [(k =? JS_TAG_INT) || NanBoxing.JS_TAG_IS_FLOAT64 k;
   (k =? JS_TAG_BIG_INT) || (k =? JS_TAG_SHORT_BIG_INT);
   k =? JS_TAG_BOOL; k =? JS_TAG_NULL; k =? JS_TAG_UNDEFINED;
   k =? JS_TAG_UNINITIALIZED; k =? JS_TAG_EXCEPTION].
Proof.
  intros <-. reflexivity.
Qed.

Lemma classify_nb_float (d : double) :
  is_double d ->
  @classify nan_boxing (NanBoxing.__JS_NewFloat64 d)
  = [true; false; false; false; false; false; false].
Proof.
  intros Hd.
  pose proof (nb_float_tag_outside d Hd) as [Hi Hout].
  rewrite (classify_nb_inline (NanBoxing.__JS_NewFloat64 d)
             (NanBoxing.JS_VALUE_GET_TAG (NanBoxing.__JS_NewFloat64 d))
             eq_refl).
  remember (NanBoxing.JS_VALUE_GET_TAG (NanBoxing.__JS_NewFloat64 d)) as t
    eqn:Et.
  clear Et.
  assert (Hf : NanBoxing.JS_TAG_IS_FLOAT64 t = true)
    by (apply nb_is_float_spec; [assumption | lia]).
  rewrite Hf, orb_true_r.
  assert (Hne : forall k : Z, JS_TAG_FIRST <= k <= JS_TAG_FLOAT64 ->
                              (t =? k) = false).
  { intros k Hk. apply Z.eqb_neq. lia. }
  rewrite !Hne by (vm_compute; split; discriminate).
  reflexivity.
Qed.

Lemma classify_nb_mkval (tag val : Z) :
  @classify nan_boxing (NanBoxing.JS_MKVAL tag val)
  = (let k := to_int32 tag in
     [(k =? JS_TAG_INT) || NanBoxing.JS_TAG_IS_FLOAT64 k;
      (k =? JS_TAG_BIG_INT) || (k =? JS_TAG_SHORT_BIG_INT);
      k =? JS_TAG_BOOL; k =? JS_TAG_NULL; k =? JS_TAG_UNDEFINED;
      k =? JS_TAG_UNINITIALIZED; k =? JS_TAG_EXCEPTION]).
Proof. apply classify_nb_inline, nb_get_tag_mkval. Qed.

(** C8: in both runnable layouts each construction satisfies the classifier
    meant for it and no other of the seven: [JS_IsNumber] for [JS_NewInt32],
    [JS_NewFloat64], [JS_NewInt64] and [JS_NewUint32], [JS_IsBigInt] for
    [__JS_NewShortBigInt], [JS_IsBool] for [JS_NewBool], and [JS_IsNull],
    [JS_IsUndefined], [JS_IsUninitialized], [JS_IsException] for the four
    constants. *)
Theorem classifiers_partition_constructed_values
  (ctx : JSContext) (c : construction) :
  well_typed c ->
  @classify nan_boxing (construct ctx c) = expected_class c
  /\ @classify struct_layout (construct ctx c) = expected_class c
  /\ count_true (@classify nan_boxing (construct ctx c)) = 1%nat
  /\ count_true (@classify struct_layout (construct ctx c)) = 1%nat.
Proof.
  intros Hwt.
  assert (Hnb : @classify nan_boxing (construct ctx c) = expected_class c).
  { destruct c as [val | val | val | val | d | val | | | | ];
      cbn [construct expected_class well_typed] in *.
    - apply classify_nb_mkval.
    - apply classify_nb_float, Hwt.
    - unfold JS_NewInt64.
      destruct ((val >=? INT32_MIN) && (val <=? INT32_MAX)).
      + apply classify_nb_mkval.
      + apply classify_nb_float, double_of_Z_is_double, int64_abs_bound, Hwt.
    - unfold JS_NewUint32. destruct (val <=? INT32_MAX).
      + apply classify_nb_mkval.
      + apply classify_nb_float, double_of_Z_is_double, uint32_abs_bound, Hwt.
    - apply classify_nb_mkval.
    - apply classify_nb_mkval.
    - apply classify_nb_mkval.
    - apply classify_nb_mkval.
    - apply classify_nb_mkval.
    - apply classify_nb_mkval. }
  assert (Hst : @classify struct_layout (construct ctx c) = expected_class c).
  { destruct c as [val | val | val | val | d | val | | | | ];
      cbn [construct expected_class]; try reflexivity.
    - unfold JS_NewInt64.
      destruct ((val >=? INT32_MIN) && (val <=? INT32_MAX)); reflexivity.
    - unfold JS_NewUint32. destruct (val <=? INT32_MAX); reflexivity. }
  rewrite Hnb, Hst. repeat split; destruct c; reflexivity.
Qed.

Lemma classifiers_partition_constructed_values_witness :
  well_typed (By_JS_NewInt64 (- 2 ^ 40))
  /\ @classify nan_boxing (construct 0 (By_JS_NewInt64 (- 2 ^ 40)))
     = [true; false; false; false; false; false; false].
Proof.
  assert (Hwt : well_typed (By_JS_NewInt64 (- 2 ^ 40))).
  { cbn. unfold is_int64, INT64_MIN, INT64_MAX. lia. }
  exact (conj Hwt (proj1 (classifiers_partition_constructed_values
                            0 (By_JS_NewInt64 (- 2 ^ 40)) Hwt))).
Defined.

(** ** The NaN test *)

(** C9: in both runnable layouts [JS_VALUE_IS_NAN] of [JS_NewFloat64(ctx, d)]
    is true exactly when [d] is a NaN.  Under NaN boxing the test only
    compares the tag word of the value with the tag word of [JS_NAN]; a NaN
    whose high word is not [0x7ff80000] would fail it if it were boxed
    without being normalized. *)
Theorem is_nan_iff_nan (ctx : JSContext) (d : double) :
  is_double d ->
  NanBoxing.JS_VALUE_IS_NAN (@JS_NewFloat64 nan_boxing ctx d)
  = double_is_nan d
  /\ StructLayout.JS_VALUE_IS_NAN (@JS_NewFloat64 struct_layout ctx d)
     = Some (double_is_nan d)
  /\ (forall v : NanBoxing.JSValue,
        NanBoxing.JS_VALUE_IS_NAN v
        = (to_uint32 (NanBoxing.JS_VALUE_GET_TAG v)
           =? to_uint32 (NanBoxing.JS_VALUE_GET_TAG NanBoxing.JS_NAN)))
  /\ (double_is_nan d = true ->
      d / 2 ^ 32 <> 0x7ff80000 ->
      NanBoxing.JS_VALUE_IS_NAN (box_without_normalization d) = false).
Proof.
  intros Hd.
  rewrite <- (u64_is_nan_double_is_nan d Hd).
  split; [|split; [|split]].
  - unfold JS_NewFloat64. cbn [__JS_NewFloat64 nan_boxing].
    destruct (u64_is_nan d) eqn:E.
    + rewrite (nb_newfloat_nan d E). reflexivity.
    + rewrite (nb_newfloat_not_nan d E). apply u64_is_nan_false in E.
      unfold NanBoxing.JS_VALUE_IS_NAN, NanBoxing.JS_VALUE_GET_TAG.
      rewrite nb_JS_NAN_eq. rewrite !Z.shiftr_div_pow2 by lia.
      apply Z.eqb_neq. solve_div_mod.
  - reflexivity.
  - intros v. reflexivity.
  - intros _ Hh.
    unfold box_without_normalization. rewrite nb_addend_shifted.
    unfold NanBoxing.JS_VALUE_IS_NAN, NanBoxing.JS_VALUE_GET_TAG.
    rewrite nb_JS_NAN_eq. rewrite !Z.shiftr_div_pow2 by lia.
    apply Z.eqb_neq. solve_div_mod.
Qed.

Lemma is_nan_iff_nan_witness :
  is_double 0xfff0000000000001
  /\ NanBoxing.JS_VALUE_IS_NAN (@JS_NewFloat64 nan_boxing 0 0xfff0000000000001)
     = true
  /\ NanBoxing.JS_VALUE_IS_NAN (box_without_normalization 0xfff0000000000001)
     = false.
Proof.
  assert (Hd : is_double 0xfff0000000000001) by (unfold is_double; lia).
  pose proof (is_nan_iff_nan 0 0xfff0000000000001 Hd) as (H1 & _ & _ & H4).
  refine (conj Hd (conj H1 (H4 eq_refl _))).
  vm_compute. discriminate.
Defined.

(** ** The pairwise classifiers *)

(** C10: [JS_VALUE_IS_BOTH_INT] is true exactly when both tags are
    [JS_TAG_INT] (the bitwise OR of two tags is zero exactly when each is
    zero), and [JS_VALUE_IS_BOTH_FLOAT] exactly when [JS_TAG_IS_FLOAT64]
    holds of both tags; this holds in every layout, and so in the NaN-boxed
    and struct layouts. *)
Theorem both_int_both_float_exact :
  (forall (L : Layout) (v1 v2 : JSValue),
      (JS_VALUE_IS_BOTH_INT v1 v2 = true
       <-> JS_VALUE_GET_TAG v1 = JS_TAG_INT /\ JS_VALUE_GET_TAG v2 = JS_TAG_INT)
      /\ (Z.lor (JS_VALUE_GET_TAG v1) (JS_VALUE_GET_TAG v2) = 0
          <-> JS_VALUE_GET_TAG v1 = 0 /\ JS_VALUE_GET_TAG v2 = 0)
      /\ (JS_VALUE_IS_BOTH_FLOAT v1 v2 = true
          <-> JS_TAG_IS_FLOAT64 (JS_VALUE_GET_TAG v1) = true
              /\ JS_TAG_IS_FLOAT64 (JS_VALUE_GET_TAG v2) = true))
  /\ (forall v1 v2 : NanBoxing.JSValue,
        @JS_VALUE_IS_BOTH_INT nan_boxing v1 v2 = true
        <-> NanBoxing.JS_VALUE_GET_TAG v1 = JS_TAG_INT
            /\ NanBoxing.JS_VALUE_GET_TAG v2 = JS_TAG_INT)
  /\ (forall v1 v2 : StructLayout.JSValue,
        @JS_VALUE_IS_BOTH_INT struct_layout v1 v2 = true
        <-> StructLayout.JS_VALUE_GET_TAG v1 = JS_TAG_INT
            /\ StructLayout.JS_VALUE_GET_TAG v2 = JS_TAG_INT).
Proof.
  assert (H : forall (L : Layout) (v1 v2 : JSValue),
             JS_VALUE_IS_BOTH_INT v1 v2 = true
             <-> JS_VALUE_GET_TAG v1 = JS_TAG_INT
                 /\ JS_VALUE_GET_TAG v2 = JS_TAG_INT).
  { intros L v1 v2. unfold JS_VALUE_IS_BOTH_INT, JS_TAG_INT.
    rewrite Z.eqb_eq. apply Z.lor_eq_0_iff. }
  split; [|split].
  - intros L v1 v2. split; [apply H | split].
    + apply Z.lor_eq_0_iff.
    + unfold JS_VALUE_IS_BOTH_FLOAT. apply andb_true_iff.
  - intros v1 v2. apply (H nan_boxing).
  - intros v1 v2. apply (H struct_layout).
Qed.

(** * Further properties of the header's code *)

(** ** The NaN-boxed word space *)

Lemma nb_get_tag_range (v : NanBoxing.JSValue) :
  is_int32 (NanBoxing.JS_VALUE_GET_TAG v).
Proof. apply to_int32_range. Qed.

Lemma nb_is_float_false_spec (tag : Z) :
  is_int32 tag ->
  NanBoxing.JS_TAG_IS_FLOAT64 tag = false
  <-> JS_TAG_FIRST <= tag < JS_TAG_FLOAT64.
Proof.
  intros H. pose proof (nb_is_float_spec tag H) as Hs.
  destruct (NanBoxing.JS_TAG_IS_FLOAT64 tag).
  - split; [discriminate|]. intros Hr. exfalso.
    assert (Ht : true = true) by reflexivity. apply Hs in Ht. lia.
  - split; [intros _ | reflexivity].
    destruct (Z.lt_ge_cases tag JS_TAG_FIRST) as [Hlt | Hge].
    + assert (false = true) as Hc by (apply Hs; left; exact Hlt). discriminate.
    + destruct (Z.lt_ge_cases tag JS_TAG_FLOAT64) as [Hlt | Hge']; [lia|].
      assert (false = true) as Hc by (apply Hs; right; lia). discriminate.
Qed.

(** X1: under NaN boxing, every 64-bit word whose tag is not a float tag
    reads, through [JS_VALUE_GET_FLOAT64], as a NaN: its high word lies
    between [0x7ff80001] and [0x7ff80011] and its low word is the payload. *)
Theorem nan_boxing_non_float_words_are_nans (v : NanBoxing.JSValue) :
  is_uint64 v ->
  NanBoxing.JS_TAG_IS_FLOAT64 (NanBoxing.JS_VALUE_GET_TAG v) = false ->
  double_is_nan (NanBoxing.JS_VALUE_GET_FLOAT64 v) = true
  /\ 0x7ff80001 <= NanBoxing.JS_VALUE_GET_FLOAT64 v / 2 ^ 32 <= 0x7ff80011
  /\ NanBoxing.JS_VALUE_GET_FLOAT64 v mod 2 ^ 32 = v mod 2 ^ 32.
Proof.
  intros Hv Hf.
  apply (nb_is_float_false_spec _ (nb_get_tag_range v)) in Hf.
  assert (Hd : is_double (NanBoxing.JS_VALUE_GET_FLOAT64 v)).
  { unfold NanBoxing.JS_VALUE_GET_FLOAT64, is_double, to_uint64.
    apply Z.mod_pos_bound. lia. }
  rewrite <- (u64_is_nan_double_is_nan _ Hd), u64_is_nan_spec.
  unfold NanBoxing.JS_VALUE_GET_FLOAT64 in *. rewrite nb_addend_shifted in *.
  unfold NanBoxing.JS_VALUE_GET_TAG in Hf.
  rewrite Z.shiftr_div_pow2 in Hf by lia.
  unfold JS_TAG_FIRST, JS_TAG_FLOAT64 in Hf.
  repeat split; solve_div_mod.
Qed.

Lemma nan_boxing_non_float_words_are_nans_witness :
  is_uint64 (NanBoxing.JS_MKVAL JS_TAG_INT 7)
  /\ double_is_nan
       (NanBoxing.JS_VALUE_GET_FLOAT64 (NanBoxing.JS_MKVAL JS_TAG_INT 7))
     = true.
Proof.
  assert (Hv : is_uint64 (NanBoxing.JS_MKVAL JS_TAG_INT 7)).
  { vm_compute. split; [discriminate | reflexivity]. }
  exact (conj Hv (proj1 (nan_boxing_non_float_words_are_nans
                           (NanBoxing.JS_MKVAL JS_TAG_INT 7) Hv eq_refl))).
Defined.

(** X2: under NaN boxing, a 64-bit word is the encoding of some double
    exactly when it is [JS_NAN] or reads as a double that is not a NaN; in
    the second case encoding what it reads as gives the word back, and its
    normalized tag is [JS_TAG_FLOAT64]. *)
Theorem nan_boxing_float_words (v : NanBoxing.JSValue) :
  is_uint64 v ->
  ((exists d : double, is_double d /\ NanBoxing.__JS_NewFloat64 d = v)
   <-> v = NanBoxing.JS_NAN
       \/ double_is_nan (NanBoxing.JS_VALUE_GET_FLOAT64 v) = false)
  /\ (double_is_nan (NanBoxing.JS_VALUE_GET_FLOAT64 v) = false ->
      NanBoxing.__JS_NewFloat64 (NanBoxing.JS_VALUE_GET_FLOAT64 v) = v
      /\ NanBoxing.JS_VALUE_GET_NORM_TAG v = JS_TAG_FLOAT64).
Proof.
  intros Hv.
  assert (Hd : is_double (NanBoxing.JS_VALUE_GET_FLOAT64 v)).
  { unfold NanBoxing.JS_VALUE_GET_FLOAT64, is_double, to_uint64.
    apply Z.mod_pos_bound. lia. }
  assert (Hback : double_is_nan (NanBoxing.JS_VALUE_GET_FLOAT64 v) = false ->
                  NanBoxing.__JS_NewFloat64 (NanBoxing.JS_VALUE_GET_FLOAT64 v)
                  = v).
  { intros Hn. rewrite <- (u64_is_nan_double_is_nan _ Hd) in Hn.
    rewrite (nb_newfloat_not_nan _ Hn).
    unfold NanBoxing.JS_VALUE_GET_FLOAT64. rewrite nb_addend_shifted.
    solve_div_mod. }
  split.
  - split.
    + intros (d & Hdd & <-).
      destruct (u64_is_nan d) eqn:E.
      * left. apply nb_newfloat_nan, E.
      * right. rewrite (nb_get_float64_newfloat d Hdd E).
        rewrite <- (u64_is_nan_double_is_nan d Hdd). exact E.
    + intros [-> | Hn].
      * exists canonical_nan. split; [unfold is_double, canonical_nan; lia|].
        reflexivity.
      * exists (NanBoxing.JS_VALUE_GET_FLOAT64 v). split; [exact Hd|].
        apply Hback, Hn.
  - intros Hn. split; [apply Hback, Hn|].
    rewrite <- (Hback Hn). apply nan_boxing_float_norm_tag, Hd.
Qed.

Lemma nan_boxing_float_words_witness :
  is_uint64 0x8007fff600000000
  /\ NanBoxing.__JS_NewFloat64
       (NanBoxing.JS_VALUE_GET_FLOAT64 0x8007fff600000000)
     = 0x8007fff600000000.
Proof.
  assert (Hv : is_uint64 0x8007fff600000000) by (unfold is_uint64; lia).
  exact (conj Hv (proj1 (proj2 (nan_boxing_float_words _ Hv) eq_refl))).
Defined.

(** X3: under NaN boxing, two doubles encode to the same value exactly
    when they are the same bit pattern or are both NaNs. *)
Theorem nan_boxing_encoding_collisions (d1 d2 : double) :
  is_double d1 ->
  is_double d2 ->
  NanBoxing.__JS_NewFloat64 d1 = NanBoxing.__JS_NewFloat64 d2
  <-> d1 = d2 \/ (double_is_nan d1 = true /\ double_is_nan d2 = true).
Proof.
  intros H1 H2.
  rewrite <- (u64_is_nan_double_is_nan d1 H1),
    <- (u64_is_nan_double_is_nan d2 H2).
  split.
  - intros Heq.
    destruct (u64_is_nan d1) eqn:E1, (u64_is_nan d2) eqn:E2.
    + right. split; reflexivity.
    + exfalso. rewrite (nb_newfloat_nan d1 E1) in Heq.
      pose proof (nb_get_float64_newfloat d2 H2 E2) as Hg.
      rewrite <- Heq in Hg. rewrite <- Hg in E2. vm_compute in E2. discriminate.
    + exfalso. rewrite (nb_newfloat_nan d2 E2) in Heq.
      pose proof (nb_get_float64_newfloat d1 H1 E1) as Hg.
      rewrite Heq in Hg. rewrite <- Hg in E1. vm_compute in E1. discriminate.
    + left. rewrite <- (nb_get_float64_newfloat d1 H1 E1),
        <- (nb_get_float64_newfloat d2 H2 E2), Heq. reflexivity.
  - intros [-> | [E1 E2]]; [reflexivity|].
    rewrite (nb_newfloat_nan d1 E1), (nb_newfloat_nan d2 E2). reflexivity.
Qed.

Lemma nan_boxing_encoding_collisions_witness :
  is_double 0x0000000000000000
  /\ is_double 0x8000000000000000
  /\ NanBoxing.__JS_NewFloat64 0x0000000000000000
     <> NanBoxing.__JS_NewFloat64 0x8000000000000000.
Proof.
  assert (H1 : is_double 0x0000000000000000) by (unfold is_double; lia).
  assert (H2 : is_double 0x8000000000000000) by (unfold is_double; lia).
  refine (conj H1 (conj H2 _)).
  intros Heq.
  destruct (proj1 (nan_boxing_encoding_collisions _ _ H1 H2) Heq)
    as [Hc | [Hc _]]; discriminate Hc.
Defined.

Lemma nb_norm_tag_by_float_test (v : NanBoxing.JSValue) :
  NanBoxing.JS_VALUE_GET_NORM_TAG v
  = (if NanBoxing.JS_TAG_IS_FLOAT64 (NanBoxing.JS_VALUE_GET_TAG v)
     then JS_TAG_FLOAT64
     else NanBoxing.JS_VALUE_GET_TAG v).
Proof.
  pose proof (nb_get_tag_range v) as Hi.
  assert (Hu : NanBoxing.JS_TAG_IS_FLOAT64
                 (to_uint32 (NanBoxing.JS_VALUE_GET_TAG v))
               = NanBoxing.JS_TAG_IS_FLOAT64 (NanBoxing.JS_VALUE_GET_TAG v)).
  { unfold NanBoxing.JS_TAG_IS_FLOAT64. f_equal. solve_div_mod. }
  assert (Hb : to_int32 (to_uint32 (NanBoxing.JS_VALUE_GET_TAG v))
               = NanBoxing.JS_VALUE_GET_TAG v) by solve_div_mod.
  unfold NanBoxing.JS_VALUE_GET_NORM_TAG. rewrite Hu, Hb. reflexivity.
Qed.

(** X4: under NaN boxing, the normalized tag of any value lies between
    [JS_TAG_FIRST] and [JS_TAG_FLOAT64]; it is [JS_TAG_FLOAT64] exactly when
    [JS_TAG_IS_FLOAT64] holds of the tag, and is the tag itself otherwise. *)
Theorem nan_boxing_norm_tag_range (v : NanBoxing.JSValue) :
  JS_TAG_FIRST <= NanBoxing.JS_VALUE_GET_NORM_TAG v <= JS_TAG_FLOAT64
  /\ (NanBoxing.JS_VALUE_GET_NORM_TAG v = JS_TAG_FLOAT64
      <-> NanBoxing.JS_TAG_IS_FLOAT64 (NanBoxing.JS_VALUE_GET_TAG v) = true)
  /\ (NanBoxing.JS_TAG_IS_FLOAT64 (NanBoxing.JS_VALUE_GET_TAG v) = false ->
      NanBoxing.JS_VALUE_GET_NORM_TAG v = NanBoxing.JS_VALUE_GET_TAG v).
Proof.
  pose proof (nb_get_tag_range v) as Hi.
  rewrite nb_norm_tag_by_float_test.
  destruct (NanBoxing.JS_TAG_IS_FLOAT64 (NanBoxing.JS_VALUE_GET_TAG v)) eqn:E.
  - repeat split; try discriminate; unfold JS_TAG_FIRST, JS_TAG_FLOAT64; lia.
  - apply (nb_is_float_false_spec _ Hi) in E.
    repeat split; try lia; try discriminate.
Qed.

(** X5: under NaN boxing, distinct logical values have distinct encodings:
    [JS_MKVAL] is injective on 32-bit tags and payloads, and a value built
    by [JS_MKVAL] or [JS_MKPTR] with a tag from [JS_TAG_FIRST] to
    [JS_TAG_SHORT_BIG_INT] is never the encoding of a double. *)
Theorem nan_boxing_encodings_are_disjoint
  (tag1 payload1 tag2 payload2 ptr : Z) (d : double) :
  is_int32 tag1 ->
  is_int32 payload1 ->
  is_int32 tag2 ->
  is_int32 payload2 ->
  is_uint32 ptr ->
  is_double d ->
  (NanBoxing.JS_MKVAL tag1 payload1 = NanBoxing.JS_MKVAL tag2 payload2
   <-> tag1 = tag2 /\ payload1 = payload2)
  /\ (JS_TAG_FIRST <= tag1 < JS_TAG_FLOAT64 ->
      NanBoxing.JS_MKVAL tag1 payload1 <> NanBoxing.__JS_NewFloat64 d
      /\ NanBoxing.JS_MKPTR tag1 ptr <> NanBoxing.__JS_NewFloat64 d).
Proof.
  intros Ht1 Hp1 Ht2 Hp2 Hptr Hd. split.
  - split.
    + intros Heq. split.
      * rewrite <- (to_int32_id tag1 Ht1), <- (to_int32_id tag2 Ht2),
          <- (nb_get_tag_mkval tag1 payload1),
          <- (nb_get_tag_mkval tag2 payload2), Heq. reflexivity.
      * rewrite <- (to_int32_id payload1 Hp1), <- (to_int32_id payload2 Hp2),
          <- (nb_get_int_mkval tag1 payload1),
          <- (nb_get_int_mkval tag2 payload2), Heq. reflexivity.
    + intros [-> ->]. reflexivity.
  - intros Hr.
    pose proof (nb_float_tag_outside d Hd) as [_ Hout].
    split; intros Heq; rewrite <- Heq in Hout.
    + rewrite nb_get_tag_mkval, (to_int32_id tag1 Ht1) in Hout. lia.
    + rewrite (nb_get_tag_mkptr tag1 ptr Hptr), (to_int32_id tag1 Ht1) in Hout.
      lia.
Qed.

Lemma nan_boxing_encodings_are_disjoint_witness :
  is_int32 JS_TAG_INT
  /\ is_double 0x4000000000000000
  /\ NanBoxing.JS_MKVAL JS_TAG_INT 2
     <> NanBoxing.__JS_NewFloat64 0x4000000000000000.
Proof.
  assert (Ht : is_int32 JS_TAG_INT)
    by (unfold is_int32, INT32_MIN, INT32_MAX, JS_TAG_INT; lia).
  assert (Hp : is_int32 2) by (unfold is_int32, INT32_MIN, INT32_MAX; lia).
  assert (Hq : is_uint32 0) by (unfold is_uint32, UINT32_MAX; lia).
  assert (Hd : is_double 0x4000000000000000) by (unfold is_double; lia).
  assert (Hr : JS_TAG_FIRST <= JS_TAG_INT < JS_TAG_FLOAT64)
    by (unfold JS_TAG_FIRST, JS_TAG_INT, JS_TAG_FLOAT64; lia).
  exact (conj Ht (conj Hd
    (proj1 (proj2 (nan_boxing_encodings_are_disjoint
                     JS_TAG_INT 2 JS_TAG_INT 2 0 0x4000000000000000
                     Ht Hp Ht Hp Hq Hd) Hr)))).
Defined.

(** X6: under NaN boxing, [JS_VALUE_IS_NAN] holds of a 64-bit word exactly
    when its tag is the tag of [JS_NAN], one below [JS_TAG_FIRST]; such a
    word has the normalized tag [JS_TAG_FLOAT64] and reads as a NaN. *)
Theorem nan_boxing_is_nan_sound (v : NanBoxing.JSValue) :
  is_uint64 v ->
  (NanBoxing.JS_VALUE_IS_NAN v = true
   <-> NanBoxing.JS_VALUE_GET_TAG v = JS_TAG_FIRST - 1)
  /\ (NanBoxing.JS_VALUE_IS_NAN v = true ->
      NanBoxing.JS_VALUE_GET_NORM_TAG v = JS_TAG_FLOAT64
      /\ double_is_nan (NanBoxing.JS_VALUE_GET_FLOAT64 v) = true).
Proof.
  intros Hv.
  assert (Hiff : NanBoxing.JS_VALUE_IS_NAN v = true
                 <-> NanBoxing.JS_VALUE_GET_TAG v = JS_TAG_FIRST - 1).
  { unfold NanBoxing.JS_VALUE_IS_NAN. rewrite nb_JS_NAN_eq.
    change (Z.shiftr 0xfffffff600000000 32) with 0xfffffff6.
    rewrite Z.eqb_eq. pose proof (nb_get_tag_range v) as Hi.
    unfold JS_TAG_FIRST. solve_div_mod. }
  split; [exact Hiff|].
  intros Hn. apply Hiff in Hn. split.
  - rewrite nb_norm_tag_by_float_test.
    replace (NanBoxing.JS_TAG_IS_FLOAT64 (NanBoxing.JS_VALUE_GET_TAG v))
      with true; [reflexivity|].
    symmetry. apply nb_is_float_spec; [apply nb_get_tag_range|]. left. lia.
  - assert (Hd : is_double (NanBoxing.JS_VALUE_GET_FLOAT64 v)).
    { unfold NanBoxing.JS_VALUE_GET_FLOAT64, is_double, to_uint64.
      apply Z.mod_pos_bound. lia. }
    rewrite <- (u64_is_nan_double_is_nan _ Hd), u64_is_nan_spec.
    unfold NanBoxing.JS_VALUE_GET_FLOAT64. rewrite nb_addend_shifted.
    unfold NanBoxing.JS_VALUE_GET_TAG in Hn.
    rewrite Z.shiftr_div_pow2 in Hn by lia.
    unfold JS_TAG_FIRST in Hn. solve_div_mod.
Qed.

Lemma nan_boxing_is_nan_sound_witness :
  is_uint64 0xfffffff600000001
  /\ double_is_nan (NanBoxing.JS_VALUE_GET_FLOAT64 0xfffffff600000001) = true.
Proof.
  assert (Hv : is_uint64 0xfffffff600000001) by (unfold is_uint64; lia).
  exact (conj Hv (proj2 (proj2 (nan_boxing_is_nan_sound _ Hv) eq_refl))).
Defined.

(** ** The classifiers on arbitrary values *)

Lemma st_get_tag_range (v : StructLayout.JSValue) :
  is_int32 (StructLayout.JS_VALUE_GET_TAG v).
Proof. apply to_int32_range. Qed.

Lemma st_is_float_spec (tag : Z) :
  is_int32 tag ->
  StructLayout.JS_TAG_IS_FLOAT64 tag = true <-> tag = JS_TAG_FLOAT64.
Proof.
  intros H. unfold StructLayout.JS_TAG_IS_FLOAT64, JS_TAG_FLOAT64.
  rewrite Z.eqb_eq. solve_div_mod.
Qed.

(** A tag is below the enumeration, one of the values from [JS_TAG_FIRST]
    to [JS_TAG_FLOAT64], or above it. *)
Lemma tag_cases (k : Z) :
  k < -9 \/ (k = -9 \/ k = -8 \/ k = -7 \/ k = -6 \/ k = -5 \/ k = -4
             \/ k = -3 \/ k = -2 \/ k = -1 \/ k = 0 \/ k = 1 \/ k = 2
             \/ k = 3 \/ k = 4 \/ k = 5 \/ k = 6 \/ k = 7 \/ k = 8)
  \/ 8 < k.
Proof. lia. Qed.

Ltac eqb_false_outside :=
  repeat match goal with
         | |- context [?k =? ?c] =>
             replace (k =? c) with false
               by (symmetry; apply Z.eqb_neq; vm_compute; lia)
         end.

Lemma classify_all_tag {L : Layout} (v : JSValue) :
  classify_all v
  = (let k := JS_VALUE_GET_TAG v in
     [(k =? JS_TAG_INT) || JS_TAG_IS_FLOAT64 k;
      (k =? JS_TAG_BIG_INT) || (k =? JS_TAG_SHORT_BIG_INT);
      k =? JS_TAG_BOOL; k =? JS_TAG_NULL; k =? JS_TAG_UNDEFINED;
      k =? JS_TAG_EXCEPTION; k =? JS_TAG_UNINITIALIZED; k =? JS_TAG_STRING;
      k =? JS_TAG_SYMBOL; k =? JS_TAG_OBJECT; k =? JS_TAG_MODULE]).
Proof. reflexivity. Qed.

Lemma at_most_one_by_tag (is_float : Z -> bool) (k : Z) :
  (is_float k = true -> k < JS_TAG_FIRST \/ JS_TAG_FLOAT64 <= k) ->
  le (count_true
        [(k =? JS_TAG_INT) || is_float k;
         (k =? JS_TAG_BIG_INT) || (k =? JS_TAG_SHORT_BIG_INT);
         k =? JS_TAG_BOOL; k =? JS_TAG_NULL; k =? JS_TAG_UNDEFINED;
         k =? JS_TAG_EXCEPTION; k =? JS_TAG_UNINITIALIZED; k =? JS_TAG_STRING;
         k =? JS_TAG_SYMBOL; k =? JS_TAG_OBJECT; k =? JS_TAG_MODULE])
     1%nat.
Proof.
  intros Hfl. unfold JS_TAG_FIRST, JS_TAG_FLOAT64 in Hfl.
  unfold JS_TAG_INT, JS_TAG_BIG_INT, JS_TAG_SHORT_BIG_INT, JS_TAG_BOOL,
    JS_TAG_NULL, JS_TAG_UNDEFINED, JS_TAG_EXCEPTION, JS_TAG_UNINITIALIZED,
    JS_TAG_STRING, JS_TAG_SYMBOL, JS_TAG_OBJECT, JS_TAG_MODULE.
  destruct (tag_cases k) as [Hlo | [Hin | Hhi]].
  - eqb_false_outside. destruct (is_float k); vm_compute; lia.
  - repeat (destruct Hin as [Hin | Hin]); subst k;
      (destruct (is_float _);
       [assert (true = true) as Ht by reflexivity; apply Hfl in Ht;
        try lia; vm_compute; lia
       | vm_compute; lia]).
  - eqb_false_outside. destruct (is_float k); vm_compute; lia.
Qed.

(** X7: in both runnable layouts, at most one of the eleven classifiers
    ([JS_IsNumber], [JS_IsBigInt], [JS_IsBool], [JS_IsNull],
    [JS_IsUndefined], [JS_IsException], [JS_IsUninitialized], [JS_IsString],
    [JS_IsSymbol], [JS_IsObject], [JS_IsModule]) holds of a value, whatever
    the value is. *)
Theorem classifiers_are_exclusive :
  (forall v : NanBoxing.JSValue,
      (count_true (@classify_all nan_boxing v) <= 1)%nat)
  /\ (forall v : StructLayout.JSValue,
        (count_true (@classify_all struct_layout v) <= 1)%nat).
Proof.
  split; intros v; rewrite classify_all_tag; cbv zeta;
    apply at_most_one_by_tag; intros Hf.
  - apply (nb_is_float_spec _ (nb_get_tag_range v)) in Hf. exact Hf.
  - apply (st_is_float_spec _ (st_get_tag_range v)) in Hf.
    cbn [JS_VALUE_GET_TAG struct_layout]. rewrite Hf.
    unfold JS_TAG_FIRST, JS_TAG_FLOAT64. lia.
Qed.

Lemma has_ref_count_by_tag {L : Layout} (v : JSValue) :
  is_int32 (JS_VALUE_GET_TAG v) ->
  JS_VALUE_HAS_REF_COUNT v = true
  <-> JS_TAG_FIRST <= JS_VALUE_GET_TAG v <= JS_TAG_OBJECT.
Proof.
  intros Hi. unfold JS_VALUE_HAS_REF_COUNT.
  rewrite (ref_count_test_spec _ Hi). unfold JS_TAG_INT, JS_TAG_OBJECT. lia.
Qed.

Lemma has_ref_count_false_by_tag {L : Layout} (v : JSValue) :
  is_int32 (JS_VALUE_GET_TAG v) ->
  JS_VALUE_GET_TAG v < JS_TAG_FIRST \/ JS_TAG_OBJECT < JS_VALUE_GET_TAG v ->
  JS_VALUE_HAS_REF_COUNT v = false.
Proof.
  intros Hi Hout. destruct (JS_VALUE_HAS_REF_COUNT v) eqn:E; [|reflexivity].
  apply (has_ref_count_by_tag v Hi) in E. lia.
Qed.

(** What the classifiers say about the reference count, for a layout whose
    tags are [int] values and whose float tags lie outside the
    reference-counted range. *)
Lemma classifiers_and_ref_count {L : Layout} (v : JSValue) :
  is_int32 (JS_VALUE_GET_TAG v) ->
  (JS_TAG_IS_FLOAT64 (JS_VALUE_GET_TAG v) = true ->
   JS_VALUE_GET_TAG v < JS_TAG_FIRST
   \/ JS_TAG_OBJECT < JS_VALUE_GET_TAG v) ->
  (JS_VALUE_HAS_REF_COUNT v = true
   <-> JS_TAG_FIRST <= JS_VALUE_GET_TAG v <= JS_TAG_OBJECT)
  /\ (JS_IsString v || JS_IsSymbol v || JS_IsObject v || JS_IsModule v = true
      -> JS_VALUE_HAS_REF_COUNT v = true)
  /\ (JS_IsNumber v || JS_IsBool v || JS_IsNull v || JS_IsUndefined v
      || JS_IsException v || JS_IsUninitialized v = true ->
      JS_VALUE_HAS_REF_COUNT v = false)
  /\ (JS_IsBigInt v = true ->
      (JS_VALUE_HAS_REF_COUNT v = true
       <-> JS_VALUE_GET_TAG v = JS_TAG_BIG_INT)).
Proof.
  intros Hi Hfl.
  pose proof (has_ref_count_by_tag v Hi) as Hrc.
  split; [exact Hrc|]. split; [|split].
  - unfold JS_IsString, JS_IsSymbol, JS_IsObject, JS_IsModule.
    rewrite !orb_true_iff, !Z.eqb_eq. intros H. apply Hrc.
    unfold JS_TAG_STRING, JS_TAG_SYMBOL, JS_TAG_OBJECT, JS_TAG_MODULE,
      JS_TAG_FIRST in *. lia.
  - unfold JS_IsNumber, JS_IsBool, JS_IsNull, JS_IsUndefined, JS_IsException,
      JS_IsUninitialized.
    rewrite !orb_true_iff, !Z.eqb_eq. intros H.
    apply (has_ref_count_false_by_tag v Hi).
    unfold JS_TAG_INT, JS_TAG_BOOL, JS_TAG_NULL, JS_TAG_UNDEFINED,
      JS_TAG_EXCEPTION, JS_TAG_UNINITIALIZED, JS_TAG_OBJECT, JS_TAG_FIRST in *.
    destruct H as [[[[[[H | H] | H] | H] | H] | H] | H];
      try lia. apply Hfl, H.
  - unfold JS_IsBigInt. rewrite orb_true_iff, !Z.eqb_eq. intros H.
    rewrite Hrc.
    unfold JS_TAG_BIG_INT, JS_TAG_SHORT_BIG_INT, JS_TAG_OBJECT, JS_TAG_FIRST
      in *. lia.
Qed.

(** X8: in both runnable layouts and for every value,
    [JS_VALUE_HAS_REF_COUNT] holds exactly when the tag is between
    [JS_TAG_FIRST] and [JS_TAG_OBJECT]; it holds whenever [JS_IsString],
    [JS_IsSymbol], [JS_IsObject] or [JS_IsModule] does, fails whenever
    [JS_IsNumber], [JS_IsBool], [JS_IsNull], [JS_IsUndefined],
    [JS_IsException] or [JS_IsUninitialized] holds, and for a [JS_IsBigInt]
    value holds exactly when the tag is [JS_TAG_BIG_INT]. *)
Theorem classifiers_agree_with_ref_count :
  (forall v : NanBoxing.JSValue,
      (@JS_VALUE_HAS_REF_COUNT nan_boxing v = true
       <-> JS_TAG_FIRST <= NanBoxing.JS_VALUE_GET_TAG v <= JS_TAG_OBJECT)
      /\ (@JS_IsString nan_boxing v || @JS_IsSymbol nan_boxing v
          || @JS_IsObject nan_boxing v || @JS_IsModule nan_boxing v = true ->
          @JS_VALUE_HAS_REF_COUNT nan_boxing v = true)
      /\ (@JS_IsNumber nan_boxing v || @JS_IsBool nan_boxing v
          || @JS_IsNull nan_boxing v || @JS_IsUndefined nan_boxing v
          || @JS_IsException nan_boxing v
          || @JS_IsUninitialized nan_boxing v = true ->
          @JS_VALUE_HAS_REF_COUNT nan_boxing v = false)
      /\ (@JS_IsBigInt nan_boxing v = true ->
          (@JS_VALUE_HAS_REF_COUNT nan_boxing v = true
           <-> NanBoxing.JS_VALUE_GET_TAG v = JS_TAG_BIG_INT)))
  /\ (forall v : StructLayout.JSValue,
        (@JS_VALUE_HAS_REF_COUNT struct_layout v = true
         <-> JS_TAG_FIRST <= StructLayout.JS_VALUE_GET_TAG v <= JS_TAG_OBJECT)
        /\ (@JS_IsString struct_layout v || @JS_IsSymbol struct_layout v
            || @JS_IsObject struct_layout v || @JS_IsModule struct_layout v
            = true ->
            @JS_VALUE_HAS_REF_COUNT struct_layout v = true)
        /\ (@JS_IsNumber struct_layout v || @JS_IsBool struct_layout v
            || @JS_IsNull struct_layout v || @JS_IsUndefined struct_layout v
            || @JS_IsException struct_layout v
            || @JS_IsUninitialized struct_layout v = true ->
            @JS_VALUE_HAS_REF_COUNT struct_layout v = false)
        /\ (@JS_IsBigInt struct_layout v = true ->
            (@JS_VALUE_HAS_REF_COUNT struct_layout v = true
             <-> StructLayout.JS_VALUE_GET_TAG v = JS_TAG_BIG_INT))).
Proof.
  split; intros v.
  - apply (@classifiers_and_ref_count nan_boxing v (nb_get_tag_range v)).
    intros Hf. apply (nb_is_float_spec _ (nb_get_tag_range v)) in Hf.
    cbn [JS_VALUE_GET_TAG nan_boxing].
    unfold JS_TAG_FIRST, JS_TAG_FLOAT64, JS_TAG_OBJECT in *. lia.
  - apply (@classifiers_and_ref_count struct_layout v (st_get_tag_range v)).
    intros Hf. apply (st_is_float_spec _ (st_get_tag_range v)) in Hf.
    cbn [JS_VALUE_GET_TAG struct_layout].
    unfold JS_TAG_FLOAT64, JS_TAG_OBJECT in *. lia.
Qed.

(** ** The inline constructors *)

Lemma st_construct_tag (ctx : JSContext) (c : construction) :
  JS_TAG_INT <= StructLayout.JS_VALUE_GET_TAG (@construct struct_layout ctx c)
  <= JS_TAG_FLOAT64.
Proof.
  unfold JS_TAG_INT, JS_TAG_FLOAT64.
  destruct c as [val | val | val | val | d | val | | | | ];
    cbn [construct].
  - cbn. lia.
  - cbn. lia.
  - unfold JS_NewInt64.
    destruct ((val >=? INT32_MIN) && (val <=? INT32_MAX)); cbn; lia.
  - unfold JS_NewUint32. destruct (val <=? INT32_MAX); cbn; lia.
  - cbn. lia.
  - cbn. lia.
  - cbn. lia.
  - cbn. lia.
  - cbn. lia.
  - cbn. lia.
Qed.

Lemma nb_construct_tag (ctx : JSContext) (c : construction) :
  well_typed c ->
  let t := NanBoxing.JS_VALUE_GET_TAG (@construct nan_boxing ctx c) in
  t < JS_TAG_FIRST \/ JS_TAG_OBJECT < t.
Proof.
  intros Hwt t. subst t.
  assert (Hf : forall d, is_double d ->
             NanBoxing.JS_VALUE_GET_TAG (NanBoxing.__JS_NewFloat64 d)
             < JS_TAG_FIRST
             \/ JS_TAG_OBJECT
                < NanBoxing.JS_VALUE_GET_TAG (NanBoxing.__JS_NewFloat64 d)).
  { intros d Hd. pose proof (nb_float_tag_outside d Hd) as [_ Ho].
    unfold JS_TAG_FLOAT64, JS_TAG_OBJECT in *. lia. }
  assert (Hm : forall tag val, JS_TAG_INT <= tag <= JS_TAG_FLOAT64 ->
             NanBoxing.JS_VALUE_GET_TAG (NanBoxing.JS_MKVAL tag val)
             < JS_TAG_FIRST
             \/ JS_TAG_OBJECT
                < NanBoxing.JS_VALUE_GET_TAG (NanBoxing.JS_MKVAL tag val)).
  { intros tag val Ht. rewrite nb_get_tag_mkval.
    unfold JS_TAG_INT, JS_TAG_FLOAT64, JS_TAG_OBJECT in *. right.
    solve_div_mod. }
  assert (H0 : JS_TAG_INT <= JS_TAG_INT <= JS_TAG_FLOAT64)
    by (vm_compute; split; discriminate).
  destruct c as [val | val | val | val | d | val | | | | ];
    cbn [construct well_typed] in *.
  - exact (Hm JS_TAG_INT val H0).
  - exact (Hf val Hwt).
  - unfold JS_NewInt64.
    destruct ((val >=? INT32_MIN) && (val <=? INT32_MAX)).
    + exact (Hm JS_TAG_INT (to_int32 val) H0).
    + exact (Hf _ (double_of_Z_is_double _ (int64_abs_bound _ Hwt))).
  - unfold JS_NewUint32. destruct (val <=? INT32_MAX).
    + exact (Hm JS_TAG_INT (to_int32 val) H0).
    + exact (Hf _ (double_of_Z_is_double _ (uint32_abs_bound _ Hwt))).
  - refine (Hm JS_TAG_SHORT_BIG_INT d _). vm_compute; split; discriminate.
  - refine (Hm JS_TAG_BOOL _ _). vm_compute; split; discriminate.
  - refine (Hm JS_TAG_NULL 0 _). vm_compute; split; discriminate.
  - refine (Hm JS_TAG_UNDEFINED 0 _). vm_compute; split; discriminate.
  - refine (Hm JS_TAG_UNINITIALIZED 0 _). vm_compute; split; discriminate.
  - refine (Hm JS_TAG_EXCEPTION 0 _). vm_compute; split; discriminate.
Qed.

(** X9: in both runnable layouts, no value built by [JS_NewInt32],
    [JS_NewFloat64], [JS_NewInt64], [JS_NewUint32], [__JS_NewShortBigInt],
    [JS_NewBool] or one of the constants [JS_NULL], [JS_UNDEFINED],
    [JS_UNINITIALIZED], [JS_EXCEPTION] has a reference count. *)
Theorem constructed_values_have_no_ref_count
  (ctx : JSContext) (c : construction) :
  well_typed c ->
  @JS_VALUE_HAS_REF_COUNT nan_boxing (construct ctx c) = false
  /\ @JS_VALUE_HAS_REF_COUNT struct_layout (construct ctx c) = false.
Proof.
  intros Hwt. split.
  - apply (@has_ref_count_false_by_tag nan_boxing);
      [apply nb_get_tag_range | apply nb_construct_tag, Hwt].
  - apply (@has_ref_count_false_by_tag struct_layout);
      [apply st_get_tag_range|].
    pose proof (st_construct_tag ctx c) as H.
    cbn [JS_VALUE_GET_TAG struct_layout].
    unfold JS_TAG_INT, JS_TAG_OBJECT in *. lia.
Qed.

Lemma constructed_values_have_no_ref_count_witness :
  well_typed (By_JS_NewUint32 (2 ^ 32 - 1))
  /\ @JS_VALUE_HAS_REF_COUNT nan_boxing
       (construct 0 (By_JS_NewUint32 (2 ^ 32 - 1))) = false.
Proof.
  assert (Hwt : well_typed (By_JS_NewUint32 (2 ^ 32 - 1))).
  { cbn. unfold is_uint32, UINT32_MAX. lia. }
  exact (conj Hwt (proj1 (constructed_values_have_no_ref_count 0 _ Hwt))).
Defined.

(** X10: in both runnable layouts, [JS_NewCatchOffset] gives a value with
    the tag [JS_TAG_CATCH_OFFSET] whose payload reads back unchanged; the
    value has no reference count and satisfies none of the eleven
    classifiers. *)
Theorem catch_offset_round_trip (ctx : JSContext) (val : Z) :
  is_int32 val ->
  (NanBoxing.JS_VALUE_GET_TAG (@JS_NewCatchOffset nan_boxing ctx val)
   = JS_TAG_CATCH_OFFSET
   /\ NanBoxing.JS_VALUE_GET_INT (@JS_NewCatchOffset nan_boxing ctx val) = val
   /\ @JS_VALUE_HAS_REF_COUNT nan_boxing (JS_NewCatchOffset ctx val) = false
   /\ @classify_all nan_boxing (JS_NewCatchOffset ctx val)
      = repeat false 11)
  /\ (StructLayout.JS_VALUE_GET_TAG (@JS_NewCatchOffset struct_layout ctx val)
      = JS_TAG_CATCH_OFFSET
      /\ StructLayout.JS_VALUE_GET_INT
           (@JS_NewCatchOffset struct_layout ctx val) = Some val
      /\ @JS_VALUE_HAS_REF_COUNT struct_layout (JS_NewCatchOffset ctx val)
         = false
      /\ @classify_all struct_layout (JS_NewCatchOffset ctx val)
         = repeat false 11).
Proof.
  intros Hv. split.
  - assert (Ht : NanBoxing.JS_VALUE_GET_TAG
                   (@JS_NewCatchOffset nan_boxing ctx val)
                 = JS_TAG_CATCH_OFFSET).
    { unfold JS_NewCatchOffset. cbn [JS_MKVAL nan_boxing].
      rewrite nb_get_tag_mkval. reflexivity. }
    split; [exact Ht|]. split; [|split].
    + unfold JS_NewCatchOffset. cbn [JS_MKVAL nan_boxing].
      rewrite nb_get_int_mkval. apply to_int32_id, Hv.
    + unfold JS_VALUE_HAS_REF_COUNT. cbn [JS_VALUE_GET_TAG nan_boxing].
      rewrite Ht. reflexivity.
    + rewrite classify_all_tag. cbv zeta. cbn [JS_VALUE_GET_TAG nan_boxing].
      rewrite Ht. reflexivity.
  - repeat split. cbn. f_equal. apply to_int32_id, Hv.
Qed.

Lemma catch_offset_round_trip_witness :
  is_int32 (-12)
  /\ NanBoxing.JS_VALUE_GET_INT (@JS_NewCatchOffset nan_boxing 0 (-12)) = -12.
Proof.
  assert (Hv : is_int32 (-12)) by (unfold is_int32, INT32_MIN, INT32_MAX; lia).
  exact (conj Hv (proj1 (proj2 (proj1 (catch_offset_round_trip 0 (-12) Hv))))).
Defined.

(** X11: in every layout, [JS_NewUint32] and [JS_NewInt64] build the same
    value from the same unsigned 32-bit number. *)
Theorem new_uint32_is_new_int64
  (L : Layout) (ctx : JSContext) (val : Z) :
  is_uint32 val ->
  JS_NewUint32 ctx val = JS_NewInt64 ctx val.
Proof.
  intros Hv. unfold JS_NewUint32, JS_NewInt64.
  replace (val >=? INT32_MIN) with true.
  - reflexivity.
  - symmetry. apply Z.geb_le.
    unfold is_uint32, UINT32_MAX, INT32_MIN in *. lia.
Qed.

Lemma new_uint32_is_new_int64_witness :
  is_uint32 (2 ^ 31)
  /\ @JS_NewUint32 nan_boxing 0 (2 ^ 31) = @JS_NewInt64 nan_boxing 0 (2 ^ 31).
Proof.
  assert (Hv : is_uint32 (2 ^ 31)) by (unfold is_uint32, UINT32_MAX; lia).
  exact (conj Hv (new_uint32_is_new_int64 nan_boxing 0 (2 ^ 31) Hv)).
Defined.

(** X12: [__JS_NewShortBigInt] keeps the low 32 bits of its argument: in
    the struct layout, where the parameter is an [int64_t], and in the
    NaN-boxed layout the payload read back is the argument wrapped to
    [int32_t], which is the argument itself exactly when it fits; the tag is
    [JS_TAG_SHORT_BIG_INT] and [JS_IsBigInt] holds in either case. *)
Theorem short_big_int_keeps_low_word (ctx : JSContext) (d : Z) :
  is_int64 d ->
  (StructLayout.JS_VALUE_GET_SHORT_BIG_INT
     (StructLayout.__JS_NewShortBigInt ctx d) = Some (to_int32 d)
   /\ (StructLayout.JS_VALUE_GET_SHORT_BIG_INT
         (StructLayout.__JS_NewShortBigInt ctx d) = Some d
       <-> is_int32 d)
   /\ StructLayout.JS_VALUE_GET_TAG (StructLayout.__JS_NewShortBigInt ctx d)
      = JS_TAG_SHORT_BIG_INT
   /\ @JS_IsBigInt struct_layout (StructLayout.__JS_NewShortBigInt ctx d)
      = true)
  /\ (NanBoxing.JS_VALUE_GET_SHORT_BIG_INT
        (NanBoxing.__JS_NewShortBigInt ctx d) = to_int32 d
      /\ (NanBoxing.JS_VALUE_GET_SHORT_BIG_INT
            (NanBoxing.__JS_NewShortBigInt ctx d) = d
          <-> is_int32 d)
      /\ NanBoxing.JS_VALUE_GET_TAG (NanBoxing.__JS_NewShortBigInt ctx d)
         = JS_TAG_SHORT_BIG_INT
      /\ @JS_IsBigInt nan_boxing (NanBoxing.__JS_NewShortBigInt ctx d)
         = true).
Proof.
  intros Hd.
  assert (Hw : to_int32 d = d <-> is_int32 d).
  { split; [intros <-; apply to_int32_range | apply to_int32_id]. }
  split.
  - split; [reflexivity|]. split; [|split; reflexivity].
    split.
    + intros H. apply Hw. cbn in H. congruence.
    + intros H. cbn. f_equal. apply Hw, H.
  - assert (Hg : NanBoxing.JS_VALUE_GET_SHORT_BIG_INT
                   (NanBoxing.__JS_NewShortBigInt ctx d) = to_int32 d).
    { unfold NanBoxing.__JS_NewShortBigInt. apply nb_get_int_mkval. }
    assert (Ht : NanBoxing.JS_VALUE_GET_TAG
                   (NanBoxing.__JS_NewShortBigInt ctx d)
                 = JS_TAG_SHORT_BIG_INT).
    { unfold NanBoxing.__JS_NewShortBigInt. rewrite nb_get_tag_mkval.
      reflexivity. }
    rewrite Hg. split; [reflexivity|]. split; [exact Hw|].
    split; [exact Ht|].
    unfold JS_IsBigInt. cbn [JS_VALUE_GET_TAG nan_boxing]. rewrite Ht.
    reflexivity.
Qed.

Lemma short_big_int_keeps_low_word_witness :
  is_int64 (2 ^ 31)
  /\ StructLayout.JS_VALUE_GET_SHORT_BIG_INT
       (StructLayout.__JS_NewShortBigInt 0 (2 ^ 31)) = Some (- 2 ^ 31).
Proof.
  assert (Hd : is_int64 (2 ^ 31))
    by (unfold is_int64, INT64_MIN, INT64_MAX; lia).
  exact (conj Hd (proj1 (proj1 (short_big_int_keeps_low_word 0 (2 ^ 31) Hd)))).
Defined.

(** X13: in both runnable layouts, [JS_ToBoolean] returns [JS_FALSE] when
    [JS_ToBool] returns 0 and [JS_TRUE] for every other result, the error
    result -1 included; its result is always a boolean and never
    [JS_EXCEPTION]. *)
Theorem to_boolean_is_always_a_boolean :
  (forall (JS_ToBool : JSContext -> NanBoxing.JSValue -> Z)
          (ctx : JSContext) (val : NanBoxing.JSValue),
      @JS_ToBoolean nan_boxing JS_ToBool ctx val
      = (if JS_ToBool ctx val =? 0 then JS_FALSE else JS_TRUE)
      /\ (JS_ToBool ctx val = -1 ->
          @JS_ToBoolean nan_boxing JS_ToBool ctx val = JS_TRUE)
      /\ @JS_IsBool nan_boxing (@JS_ToBoolean nan_boxing JS_ToBool ctx val) = true
      /\ @JS_IsException nan_boxing
           (@JS_ToBoolean nan_boxing JS_ToBool ctx val) = false
      /\ @JS_ToBoolean nan_boxing JS_ToBool ctx val <> JS_EXCEPTION)
  /\ (forall (JS_ToBool : JSContext -> StructLayout.JSValue -> Z)
             (ctx : JSContext) (val : StructLayout.JSValue),
        @JS_ToBoolean struct_layout JS_ToBool ctx val
        = (if JS_ToBool ctx val =? 0 then JS_FALSE else JS_TRUE)
        /\ (JS_ToBool ctx val = -1 ->
            @JS_ToBoolean struct_layout JS_ToBool ctx val = JS_TRUE)
        /\ @JS_IsBool struct_layout
             (@JS_ToBoolean struct_layout JS_ToBool ctx val) = true
        /\ @JS_IsException struct_layout
             (@JS_ToBoolean struct_layout JS_ToBool ctx val) = false
        /\ @JS_ToBoolean struct_layout JS_ToBool ctx val <> JS_EXCEPTION).
Proof.
  split; intros JS_ToBool ctx val;
    unfold JS_ToBoolean, bool_of_int;
    (split; [destruct (JS_ToBool ctx val =? 0); reflexivity|]);
    (split; [intros ->; reflexivity|]);
    destruct (JS_ToBool ctx val =? 0);
    (split; [vm_compute; reflexivity|]);
    (split; [vm_compute; reflexivity|]);
    vm_compute; discriminate.
Qed.

(** X14: in both runnable layouts and for all values,
    [JS_VALUE_IS_BOTH_INT] and [JS_VALUE_IS_BOTH_FLOAT] never hold together,
    and each of them implies that [JS_IsNumber] holds of both values. *)
Theorem both_int_and_both_float_are_numbers :
  (forall v1 v2 : NanBoxing.JSValue,
      (@JS_VALUE_IS_BOTH_INT nan_boxing v1 v2
       && @JS_VALUE_IS_BOTH_FLOAT nan_boxing v1 v2 = false)
      /\ (@JS_VALUE_IS_BOTH_INT nan_boxing v1 v2
          || @JS_VALUE_IS_BOTH_FLOAT nan_boxing v1 v2 = true ->
          @JS_IsNumber nan_boxing v1 = true
          /\ @JS_IsNumber nan_boxing v2 = true))
  /\ (forall v1 v2 : StructLayout.JSValue,
        (@JS_VALUE_IS_BOTH_INT struct_layout v1 v2
         && @JS_VALUE_IS_BOTH_FLOAT struct_layout v1 v2 = false)
        /\ (@JS_VALUE_IS_BOTH_INT struct_layout v1 v2
            || @JS_VALUE_IS_BOTH_FLOAT struct_layout v1 v2 = true ->
            @JS_IsNumber struct_layout v1 = true
            /\ @JS_IsNumber struct_layout v2 = true)).
Proof.
  assert (G : forall (L : Layout) (v1 v2 : JSValue),
             JS_TAG_IS_FLOAT64 JS_TAG_INT = false ->
             (JS_VALUE_IS_BOTH_INT v1 v2 && JS_VALUE_IS_BOTH_FLOAT v1 v2
              = false)
             /\ (JS_VALUE_IS_BOTH_INT v1 v2 || JS_VALUE_IS_BOTH_FLOAT v1 v2
                 = true ->
                 JS_IsNumber v1 = true /\ JS_IsNumber v2 = true)).
  { intros L v1 v2 H0.
    unfold JS_VALUE_IS_BOTH_INT, JS_VALUE_IS_BOTH_FLOAT, JS_IsNumber.
    destruct (Z.lor (JS_VALUE_GET_TAG v1) (JS_VALUE_GET_TAG v2) =? 0) eqn:E.
    - apply Z.eqb_eq, Z.lor_eq_0_iff in E. destruct E as [E1 E2].
      rewrite E1, E2. change 0 with JS_TAG_INT. rewrite H0.
      split; [reflexivity | intros _; split; reflexivity].
    - split; [reflexivity|]. cbn [orb andb]. rewrite andb_true_iff.
      intros [-> ->]. rewrite !orb_true_r. split; reflexivity. }
  split; intros v1 v2.
  - apply (G nan_boxing). reflexivity.
  - apply (G struct_layout). reflexivity.
Qed.

(** ** Words of flags *)

Lemma flag_word_decodes (mask : Z) (types flags : list Z) :
  forallb (fun y => Z.land y mask =? 0) flags = true ->
  forallb (fun t => Z.land t mask =? t) types = true ->
  forallb (fun t => forallb (fun x => Z.land t x =? 0) flags) types = true ->
  forallb (fun y =>
             forallb (fun x => Bool.eqb (negb (Z.land y x =? 0)) (y =? x))
                     flags) flags = true ->
  forall (type : Z) (fl : list Z) (flag : Z),
    In type types -> incl fl flags -> In flag flags ->
    Z.land (flag_word type fl) mask = type
    /\ (flag_is_set (flag_word type fl) flag = true <-> In flag fl).
Proof.
  intros Hmask Htypes Hdisj Hbits type fl flag Htype Hincl Hflag.
  rewrite forallb_forall in Hmask, Htypes, Hdisj, Hbits.
  induction fl as [| y fl IH].
  - cbn [flag_word fold_right]. split.
    + apply Z.eqb_eq, Htypes, Htype.
    + unfold flag_is_set.
      pose proof (Hdisj type Htype) as Hd. rewrite forallb_forall in Hd.
      rewrite (Hd flag Hflag). cbn. split; [discriminate | contradiction].
  - assert (Hy : In y flags) by (apply Hincl; left; reflexivity).
    assert (Hrest : incl fl flags).
    { intros x Hx. apply Hincl. right. exact Hx. }
    destruct (IH Hrest) as [IHm IHf].
    cbn [flag_word fold_right]. fold (flag_word type fl). split.
    + rewrite Z.land_lor_distr_l, IHm.
      rewrite (proj1 (Z.eqb_eq _ _) (Hmask y Hy)). apply Z.lor_0_l.
    + unfold flag_is_set in *. rewrite Z.land_lor_distr_l.
      pose proof (Hbits y Hy) as Hb. rewrite forallb_forall in Hb.
      specialize (Hb flag Hflag). apply eqb_prop in Hb.
      rewrite negb_true_iff, Z.eqb_neq, Z.lor_eq_0_iff.
      rewrite negb_true_iff, Z.eqb_neq in IHf.
      cbn [In]. split.
      * intros Hne.
        destruct (Z.eq_dec (Z.land y flag) 0) as [Hz | Hnz].
        -- right. apply IHf. intros Hw. apply Hne. split; assumption.
        -- left. apply Z.eqb_eq. rewrite <- Hb.
           apply negb_true_iff, Z.eqb_neq, Hnz.
      * intros [Heq | Hin] [Hz Hw].
        -- apply Z.eqb_eq in Heq. rewrite <- Hb in Heq.
           apply negb_true_iff, Z.eqb_neq in Heq. contradiction.
        -- apply IHf in Hin. contradiction.
Qed.

(** X15: a word made of one property type ([JS_PROP_NORMAL],
    [JS_PROP_GETSET], [JS_PROP_VARREF], [JS_PROP_AUTOINIT]) or-ed with any of
    the single-bit [JS_PROP_] flags gives the type back under
    [JS_PROP_TMASK], and tests as set exactly the flags that were or-ed in;
    the same holds of the [JS_Eval] types under [JS_EVAL_TYPE_MASK] with the
    [JS_EVAL_FLAG_] flags. *)
Theorem flag_words_decode
  (fam : flag_family) (type : Z) (flags : list Z) (flag : Z) :
  In type (family_types fam) ->
  incl flags (family_flags fam) ->
  In flag (family_flags fam) ->
  Z.land (flag_word type flags) (family_mask fam) = type
  /\ (flag_is_set (flag_word type flags) flag = true <-> In flag flags).
Proof.
  destruct fam.
  - apply (flag_word_decodes JS_PROP_TMASK js_prop_types js_prop_flags);
      vm_compute; reflexivity.
  - apply (flag_word_decodes JS_EVAL_TYPE_MASK js_eval_types js_eval_flags);
      vm_compute; reflexivity.
Qed.

Lemma flag_words_decode_witness :
  In JS_PROP_GETSET (family_types Property_flags)
  /\ incl [JS_PROP_ENUMERABLE; JS_PROP_HAS_GET] (family_flags Property_flags)
  /\ In JS_PROP_WRITABLE (family_flags Property_flags)
  /\ Z.land (flag_word JS_PROP_GETSET [JS_PROP_ENUMERABLE; JS_PROP_HAS_GET])
            JS_PROP_TMASK = JS_PROP_GETSET.
Proof.
  assert (Ht : In JS_PROP_GETSET (family_types Property_flags)).
  { cbv [family_types js_prop_types In]. tauto. }
  assert (Hi : incl [JS_PROP_ENUMERABLE; JS_PROP_HAS_GET]
                    (family_flags Property_flags)).
  { intros x [<- | [<- | []]]; cbv [family_flags js_prop_flags In]; tauto. }
  assert (Hf : In JS_PROP_WRITABLE (family_flags Property_flags)).
  { cbv [family_flags js_prop_flags In]. tauto. }
  exact (conj Ht (conj Hi (conj Hf
    (proj1 (flag_words_decode Property_flags _ _ _ Ht Hi Hf))))).
Defined.

(** ** The checked layout on negative tags *)

Lemma lor_negative_tag (tag val : Z) :
  -16 <= tag < 0 -> Z.lor tag (val * 2 ^ 4) = tag.
Proof.
  intros Ht. apply Z.bits_inj'. intros n Hn.
  rewrite Z.lor_spec.
  destruct (Z.lt_ge_cases n 4) as [Hlt | Hge].
  - rewrite Z.mul_pow2_bits_low by assumption. apply orb_false_r.
  - replace (Z.testbit tag n) with true; [reflexivity|].
    replace n with ((n - 4) + 4) by lia.
    rewrite <- Z.shiftr_spec by lia.
    rewrite Z.shiftr_div_pow2 by lia.
    replace (tag / 2 ^ 4) with (-1) by (Z.div_mod_to_equations; lia).
    symmetry. apply Z.bits_m1. lia.
Qed.

(** X16: in the checked layout, for a pointer width of 36 bits or more,
    [JS_MKVAL] with a negative tag (each reference-counted tag is one)
    ignores its payload: the value is the tag itself, [JS_VALUE_GET_TAG]
    reads the tag plus 16 and [JS_VALUE_GET_INT] reads -1. *)
Theorem checked_mkval_drops_payload_of_negative_tags (w tag val : Z) :
  36 <= w ->
  -16 <= tag < 0 ->
  is_int32 val ->
  Checked.JS_MKVAL w tag val = tag
  /\ Checked.JS_VALUE_GET_TAG (Checked.JS_MKVAL w tag val) = tag + 16
  /\ Checked.JS_VALUE_GET_INT (Checked.JS_MKVAL w tag val) = -1.
Proof.
  intros Hw Ht Hv.
  assert (Hpow : 2 ^ 35 <= 2 ^ (w - 1)) by (apply Z.pow_le_mono_r; lia).
  assert (Hm : Checked.JS_MKVAL w tag val = tag).
  { unfold is_int32, INT32_MIN, INT32_MAX in Hv. unfold Checked.JS_MKVAL.
    rewrite (to_intptr_id w val) by lia.
    rewrite Z.shiftl_mul_pow2 by lia.
    rewrite (to_intptr_id w (val * 2 ^ 4)) by lia.
    rewrite (lor_negative_tag tag val Ht).
    apply to_intptr_id; lia. }
  rewrite Hm. split; [reflexivity|].
  unfold Checked.JS_VALUE_GET_TAG, Checked.JS_VALUE_GET_INT.
  change 15 with (Z.ones 4). rewrite Z.land_ones by lia.
  rewrite Z.shiftr_div_pow2 by lia.
  split; solve_div_mod.
Qed.

Lemma checked_mkval_drops_payload_of_negative_tags_witness :
  36 <= 64
  /\ -16 <= JS_TAG_STRING < 0
  /\ is_int32 1234
  /\ Checked.JS_MKVAL 64 JS_TAG_STRING 1234 = JS_TAG_STRING.
Proof.
  assert (Hw : 36 <= 64) by lia.
  assert (Ht : -16 <= JS_TAG_STRING < 0) by (unfold JS_TAG_STRING; lia).
  assert (Hv : is_int32 1234) by (unfold is_int32, INT32_MIN, INT32_MAX; lia).
  exact (conj Hw (conj Ht (conj Hv
    (proj1 (checked_mkval_drops_payload_of_negative_tags
              64 JS_TAG_STRING 1234 Hw Ht Hv))))).
Defined.

(** ** Integers that survive the conversion to a double *)

Lemma double_of_Z_fields (v : Z) :
  v <> 0 -> Z.abs v <= 2 ^ 53 ->
  exists e f : Z,
    0 <= e <= 53 /\ 0 <= f < 2 ^ 52
    /\ Z.abs v * 2 ^ 52 = (f + 2 ^ 52) * 2 ^ e
    /\ double_of_Z v
       = (if v <? 0 then 1 else 0) * 2 ^ 63 + (e + 1023) * 2 ^ 52 + f.
Proof.
  intros Hnz Hb.
  assert (Hmpos : 0 < Z.abs v) by lia.
  pose proof (Z.log2_spec (Z.abs v) Hmpos) as [Hlo Hhi].
  pose proof (Z.log2_nonneg (Z.abs v)) as He0.
  destruct (Z.le_gt_cases (Z.log2 (Z.abs v)) 52) as [Hle | Hgt].
  - exists (Z.log2 (Z.abs v)),
      (Z.abs v * 2 ^ (52 - Z.log2 (Z.abs v)) - 2 ^ 52).
    set (m := Z.abs v) in *. set (e := Z.log2 m) in *.
    assert (Hp : 2 ^ e * 2 ^ (52 - e) = 2 ^ 52).
    { rewrite <- Z.pow_add_r by lia. f_equal. lia. }
    assert (Hp1 : 0 < 2 ^ (52 - e)) by (apply Z.pow_pos_nonneg; lia).
    assert (Hp2 : 0 < 2 ^ e) by (apply Z.pow_pos_nonneg; lia).
    replace (Z.succ e) with (e + 1) in Hhi by lia.
    rewrite Z.pow_add_r in Hhi by lia. change (2 ^ 1) with 2 in Hhi.
    split; [lia|]. split; [change (2 ^ 52) with 4503599627370496 in *; nia|].
    split.
    + replace (m * 2 ^ (52 - e) - 2 ^ 52 + 2 ^ 52) with (m * 2 ^ (52 - e))
        by lia.
      rewrite <- Hp. ring.
    + unfold double_of_Z. fold m. fold e.
      replace (m =? 0) with false by (symmetry; apply Z.eqb_neq; lia).
      replace (e <=? 52) with true by (symmetry; apply Z.leb_le; lia).
      reflexivity.
  - assert (Hm : Z.abs v = 2 ^ 53).
    { assert (2 ^ 53 <= 2 ^ Z.log2 (Z.abs v))
        by (apply Z.pow_le_mono_r; lia).
      lia. }
    exists 53, 0. split; [lia|]. split; [lia|]. split.
    + rewrite Hm. reflexivity.
    + assert (Hv : v = 2 ^ 53 \/ v = - 2 ^ 53) by lia.
      destruct Hv as [-> | ->]; vm_compute; reflexivity.
Qed.

Lemma double_of_Z_injective (v1 v2 : Z) :
  Z.abs v1 <= 2 ^ 53 -> Z.abs v2 <= 2 ^ 53 ->
  double_of_Z v1 = double_of_Z v2 -> v1 = v2.
Proof.
  intros H1 H2 Heq.
  assert (Hz : forall v, v <> 0 -> Z.abs v <= 2 ^ 53 -> double_of_Z v <> 0).
  { intros v Hnz Hb. destruct (double_of_Z_fields v Hnz Hb)
      as (e & f & He & Hf & _ & ->).
    destruct (v <? 0); lia. }
  destruct (Z.eq_dec v1 0) as [-> | Hn1].
  - destruct (Z.eq_dec v2 0) as [-> | Hn2]; [reflexivity|].
    exfalso. apply (Hz v2 Hn2 H2). rewrite <- Heq. reflexivity.
  - destruct (Z.eq_dec v2 0) as [-> | Hn2].
    + exfalso. apply (Hz v1 Hn1 H1). rewrite Heq. reflexivity.
    + destruct (double_of_Z_fields v1 Hn1 H1)
        as (e1 & f1 & He1 & Hf1 & Hr1 & Hd1).
      destruct (double_of_Z_fields v2 Hn2 H2)
        as (e2 & f2 & He2 & Hf2 & Hr2 & Hd2).
      rewrite Hd1, Hd2 in Heq.
      assert (Hs : (v1 <? 0) = (v2 <? 0)).
      { destruct (v1 <? 0), (v2 <? 0); try reflexivity; lia. }
      rewrite Hs in Heq.
      assert (He : e1 = e2) by lia. subst e2.
      assert (Hf : f1 = f2) by lia. subst f2.
      assert (Hm : Z.abs v1 = Z.abs v2).
      { rewrite <- Hr2 in Hr1. lia. }
      destruct (Z.ltb_spec v1 0), (Z.ltb_spec v2 0);
        try discriminate Hs; lia.
Qed.

(** The conversion to [int] on sample doubles: 1.5, -1.5, 0.9, -0.0, 2^31,
    -2^31, 2147483647.5, -2147483648.5, -2147483649, a NaN, infinity, a
    subnormal and 42. *)
Example int_of_double_samples :
  map int_of_double
      [0x3ff8000000000000; 0xbff8000000000000; 0x3feccccccccccccd;
       0x8000000000000000; 0x41e0000000000000; 0xc1e0000000000000;
       0x41dfffffffe00000; 0xc1e0000000100000; 0xc1e0000000200000;
       0x7ff8000000000000; 0x7ff0000000000000; 0x00000000000007e8;
       0x4045000000000000]
  = [Some 1; Some (-1); Some 0; Some 0; None; Some (- 2 ^ 31);
     Some (2 ^ 31 - 1); Some (- 2 ^ 31); None; None; None; Some 0; Some 42].
Proof. vm_compute. reflexivity. Qed.

(** Converting an [int] to a double and back gives the [int]. *)
Lemma int_of_double_of_Z (v : Z) :
  is_int32 v -> int_of_double (double_of_Z v) = Some v.
Proof.
  intros Hv. unfold is_int32, INT32_MIN, INT32_MAX in Hv.
  destruct (Z.eq_dec v 0) as [-> | Hnz]; [vm_compute; reflexivity|].
  destruct (double_of_Z_fields v Hnz) as (e & f & He & Hf & Hr & Hb); [lia|].
  assert (Hpe : 0 < 2 ^ e) by (apply Z.pow_pos_nonneg; lia).
  assert (He31 : e <= 31).
  { destruct (Z.le_gt_cases e 31) as [Hle | Hgt]; [exact Hle|].
    assert (2 ^ 32 <= 2 ^ e) by (apply Z.pow_le_mono_r; lia).
    change (2 ^ 52) with 4503599627370496 in *.
    change (2 ^ 32) with 4294967296 in *. nia. }
  assert (Hsplit : 2 ^ e * 2 ^ (52 - e) = 2 ^ 52).
  { rewrite <- Z.pow_add_r by lia. f_equal. lia. }
  assert (Hpk : 0 < 2 ^ (52 - e)) by (apply Z.pow_pos_nonneg; lia).
  assert (Hm : 2 ^ 52 + f = Z.abs v * 2 ^ (52 - e)).
  { apply (Z.mul_reg_r _ _ (2 ^ e)); [lia|].
    rewrite <- Z.mul_assoc, (Z.mul_comm (2 ^ (52 - e))), Hsplit. lia. }
  set (s := if v <? 0 then 1 else 0) in Hb.
  assert (Hs : (v < 0 /\ s = 1) \/ (0 < v /\ s = 0)).
  { subst s. destruct (Z.ltb_spec v 0); lia. }
  assert (Hexp : double_exponent (double_of_Z v) = e + 1023).
  { unfold double_exponent. rewrite Hb.
    change (2 ^ 63) with (2 ^ 11 * 2 ^ 52).
    change (2 ^ 52) with 4503599627370496 in *.
    change (2 ^ 11) with 2048.
    destruct Hs as [[_ ->] | [_ ->]]; Z.div_mod_to_equations; lia. }
  assert (Hfrac : double_fraction (double_of_Z v) = f).
  { unfold double_fraction. rewrite Hb.
    change (2 ^ 63) with (2 ^ 11 * 2 ^ 52).
    change (2 ^ 52) with 4503599627370496 in *.
    change (2 ^ 11) with 2048.
    destruct Hs as [[_ ->] | [_ ->]]; Z.div_mod_to_equations; lia. }
  assert (Hsign : double_sign (double_of_Z v) = s).
  { unfold double_sign. rewrite Hb.
    change (2 ^ 52) with 4503599627370496 in *.
    change (2 ^ 63) with 9223372036854775808.
    destruct Hs as [[_ ->] | [_ ->]]; Z.div_mod_to_equations; lia. }
  unfold int_of_double. cbv zeta. rewrite Hexp, Hfrac, Hsign.
  replace (e + 1023 =? 2047) with false by (symmetry; apply Z.eqb_neq; lia).
  replace (e + 1023 <? 1023) with false by (symmetry; apply Z.ltb_ge; lia).
  replace (1075 <=? e + 1023) with false by (symmetry; apply Z.leb_gt; lia).
  replace (1075 - (e + 1023)) with (52 - e) by lia.
  rewrite Hm, Z.div_mul by lia.
  assert (Hval : (if s =? 0 then Z.abs v else - Z.abs v) = v).
  { destruct Hs as [[Hneg ->] | [Hpos ->]]; cbn; lia. }
  rewrite Hval.
  replace (INT32_MIN <=? v) with true
    by (symmetry; apply Z.leb_le; unfold INT32_MIN; lia).
  replace (v <=? INT32_MAX) with true
    by (symmetry; apply Z.leb_le; unfold INT32_MAX; lia).
  reflexivity.
Qed.

(** X17: in both runnable layouts, [JS_NewInt64] maps distinct integers of
    magnitude at most [2^53] to distinct values: nothing is lost in that
    range, whether the inline or the float representation is chosen. *)
Theorem new_int64_is_injective_up_to_2_53 (ctx : JSContext) (v1 v2 : Z) :
  Z.abs v1 <= 2 ^ 53 ->
  Z.abs v2 <= 2 ^ 53 ->
  (@JS_NewInt64 nan_boxing ctx v1 = @JS_NewInt64 nan_boxing ctx v2 -> v1 = v2)
  /\ (@JS_NewInt64 struct_layout ctx v1 = @JS_NewInt64 struct_layout ctx v2 ->
      v1 = v2).
Proof.
  intros H1 H2.
  assert (Ha1 : Z.abs v1 < 2 ^ 64) by lia.
  assert (Ha2 : Z.abs v2 < 2 ^ 64) by lia.
  destruct (range_test_int64 v1) as [Hr1 Hr1'].
  destruct (range_test_int64 v2) as [Hr2 Hr2'].
  split; intros Heq; unfold JS_NewInt64, JS_NewInt32, JS_NewFloat64 in Heq.
  - cbn [JS_MKVAL __JS_NewFloat64 nan_boxing] in Heq.
    destruct ((v1 >=? INT32_MIN) && (v1 <=? INT32_MAX)) eqn:E1,
             ((v2 >=? INT32_MIN) && (v2 <=? INT32_MAX)) eqn:E2.
    + specialize (Hr1 eq_refl). specialize (Hr2 eq_refl).
      rewrite <- (to_int32_id v1 Hr1), <- (to_int32_id v2 Hr2).
      rewrite <- (to_int32_id (to_int32 v1) (to_int32_range v1)),
        <- (to_int32_id (to_int32 v2) (to_int32_range v2)).
      rewrite <- (nb_get_int_mkval JS_TAG_INT (to_int32 v1)),
        <- (nb_get_int_mkval JS_TAG_INT (to_int32 v2)), Heq. reflexivity.
    + exfalso. symmetry in Heq.
      exact (nb_float_is_not_int _ _ (double_of_Z_is_double v2 Ha2) Heq).
    + exfalso.
      exact (nb_float_is_not_int _ _ (double_of_Z_is_double v1 Ha1) Heq).
    + apply double_of_Z_injective; try assumption.
      rewrite <- (nb_get_float64_newfloat _ (double_of_Z_is_double v1 Ha1)
                    (double_of_Z_not_nan v1 Ha1)),
        <- (nb_get_float64_newfloat _ (double_of_Z_is_double v2 Ha2)
              (double_of_Z_not_nan v2 Ha2)), Heq. reflexivity.
  - cbn [JS_MKVAL __JS_NewFloat64 struct_layout] in Heq.
    destruct ((v1 >=? INT32_MIN) && (v1 <=? INT32_MAX)) eqn:E1,
             ((v2 >=? INT32_MIN) && (v2 <=? INT32_MAX)) eqn:E2.
    + specialize (Hr1 eq_refl). specialize (Hr2 eq_refl).
      unfold StructLayout.JS_MKVAL in Heq. injection Heq as Hi.
      rewrite !to_int32_id in Hi by (apply to_int32_range || assumption).
      exact Hi.
    + discriminate Heq.
    + discriminate Heq.
    + unfold StructLayout.__JS_NewFloat64 in Heq. injection Heq as Hi.
      apply double_of_Z_injective; assumption.
Qed.

Lemma new_int64_is_injective_up_to_2_53_witness :
  Z.abs (2 ^ 53) <= 2 ^ 53
  /\ Z.abs (2 ^ 53 - 1) <= 2 ^ 53
  /\ @JS_NewInt64 nan_boxing 0 (2 ^ 53) <> @JS_NewInt64 nan_boxing 0 (2 ^ 53 - 1).
Proof.
  assert (H1 : Z.abs (2 ^ 53) <= 2 ^ 53) by lia.
  assert (H2 : Z.abs (2 ^ 53 - 1) <= 2 ^ 53) by lia.
  refine (conj H1 (conj H2 _)).
  intros Heq.
  pose proof (proj1 (new_int64_is_injective_up_to_2_53 0 _ _ H1 H2) Heq) as Hc.
  lia.
Defined.

(** Above [2^53] the conversion rounds: [2^53] and [2^53 + 1] are built
    into the same value. *)
Example new_int64_collides_above_2_53 :
  @JS_NewInt64 nan_boxing 0 (2 ^ 53) = @JS_NewInt64 nan_boxing 0 (2 ^ 53 + 1)
  /\ @JS_NewInt64 struct_layout 0 (2 ^ 53)
     = @JS_NewInt64 struct_layout 0 (2 ^ 53 + 1).
Proof. split; vm_compute; reflexivity. Qed.

Lemma new_int64_tag {L : Layout} (ctx : JSContext) (v : Z) :
  (forall val : Z, JS_VALUE_GET_TAG (JS_MKVAL JS_TAG_INT val) = JS_TAG_INT) ->
  JS_TAG_IS_FLOAT64 JS_TAG_INT = false ->
  JS_TAG_IS_FLOAT64 (JS_VALUE_GET_TAG (__JS_NewFloat64 (double_of_Z v)))
  = true ->
  (JS_VALUE_GET_TAG (JS_NewInt64 ctx v) = JS_TAG_INT <-> in_int32_range v)
  /\ (JS_TAG_IS_FLOAT64 (JS_VALUE_GET_TAG (JS_NewInt64 ctx v)) = true
      <-> ~ in_int32_range v).
Proof.
  intros Hint H0 Hfl.
  destruct (range_test_int64 v) as [Ha Hb].
  unfold JS_NewInt64, JS_NewInt32, JS_NewFloat64.
  destruct ((v >=? INT32_MIN) && (v <=? INT32_MAX)).
  - specialize (Ha eq_refl). rewrite Hint, H0. split.
    + split; [intros _; exact Ha | reflexivity].
    + split; [discriminate | contradiction].
  - assert (Hn : ~ in_int32_range v).
    { intros Hr. apply Hb in Hr. discriminate. }
    rewrite Hfl. split.
    + split; [|contradiction]. intros Ht. rewrite Ht, H0 in Hfl.
      discriminate.
    + split; [intros _; exact Hn | reflexivity].
Qed.

Lemma fast_paths_by_tag {L : Layout} (x1 x2 : JSValue) (P1 P2 : Prop) :
  (JS_VALUE_GET_TAG x1 = JS_TAG_INT <-> P1) ->
  (JS_VALUE_GET_TAG x2 = JS_TAG_INT <-> P2) ->
  (JS_TAG_IS_FLOAT64 (JS_VALUE_GET_TAG x1) = true <-> ~ P1) ->
  (JS_TAG_IS_FLOAT64 (JS_VALUE_GET_TAG x2) = true <-> ~ P2) ->
  (JS_VALUE_IS_BOTH_INT x1 x2 = true <-> P1 /\ P2)
  /\ (JS_VALUE_IS_BOTH_FLOAT x1 x2 = true <-> ~ P1 /\ ~ P2).
Proof.
  intros Hi1 Hi2 Hf1 Hf2. split.
  - unfold JS_VALUE_IS_BOTH_INT. rewrite Z.eqb_eq, Z.lor_eq_0_iff.
    unfold JS_TAG_INT in *. tauto.
  - unfold JS_VALUE_IS_BOTH_FLOAT. rewrite andb_true_iff. tauto.
Qed.

(** X18: in both runnable layouts, [JS_VALUE_IS_BOTH_INT] holds of two
    values built by [JS_NewInt64] exactly when both integers are in the
    [int32_t] range, and [JS_VALUE_IS_BOTH_FLOAT] exactly when neither is. *)
Theorem new_int64_fast_paths (ctx : JSContext) (v1 v2 : Z) :
  is_int64 v1 ->
  is_int64 v2 ->
  ((@JS_VALUE_IS_BOTH_INT nan_boxing (JS_NewInt64 ctx v1) (JS_NewInt64 ctx v2)
    = true
    <-> INT32_MIN <= v1 <= INT32_MAX /\ INT32_MIN <= v2 <= INT32_MAX)
   /\ (@JS_VALUE_IS_BOTH_FLOAT nan_boxing
         (JS_NewInt64 ctx v1) (JS_NewInt64 ctx v2) = true
       <-> ~ INT32_MIN <= v1 <= INT32_MAX /\ ~ INT32_MIN <= v2 <= INT32_MAX))
  /\ ((@JS_VALUE_IS_BOTH_INT struct_layout
         (JS_NewInt64 ctx v1) (JS_NewInt64 ctx v2) = true
       <-> INT32_MIN <= v1 <= INT32_MAX /\ INT32_MIN <= v2 <= INT32_MAX)
      /\ (@JS_VALUE_IS_BOTH_FLOAT struct_layout
            (JS_NewInt64 ctx v1) (JS_NewInt64 ctx v2) = true
          <-> ~ INT32_MIN <= v1 <= INT32_MAX
              /\ ~ INT32_MIN <= v2 <= INT32_MAX)).
Proof.
  intros H1 H2.
  assert (Hnb : forall v, is_int64 v ->
            (@JS_VALUE_GET_TAG nan_boxing (JS_NewInt64 ctx v) = JS_TAG_INT
             <-> in_int32_range v)
            /\ (@JS_TAG_IS_FLOAT64 nan_boxing
                  (@JS_VALUE_GET_TAG nan_boxing (JS_NewInt64 ctx v)) = true
                <-> ~ in_int32_range v)).
  { intros v Hv. apply (@new_int64_tag nan_boxing).
    - intros val. apply nb_get_tag_mkval.
    - reflexivity.
    - pose proof (nb_float_tag_outside _
                    (double_of_Z_is_double v (int64_abs_bound v Hv)))
        as [Hi Hout].
      apply (nb_is_float_spec _ Hi). lia. }
  assert (Hst : forall v,
            (@JS_VALUE_GET_TAG struct_layout (JS_NewInt64 ctx v) = JS_TAG_INT
             <-> in_int32_range v)
            /\ (@JS_TAG_IS_FLOAT64 struct_layout
                  (@JS_VALUE_GET_TAG struct_layout (JS_NewInt64 ctx v)) = true
                <-> ~ in_int32_range v)).
  { intros v. apply (@new_int64_tag struct_layout); reflexivity. }
  fold (in_int32_range v1). fold (in_int32_range v2). split.
  - apply (@fast_paths_by_tag nan_boxing);
      first [apply (Hnb v1 H1) | apply (Hnb v2 H2)].
  - apply (@fast_paths_by_tag struct_layout);
      first [apply (Hst v1) | apply (Hst v2)].
Qed.

Lemma new_int64_fast_paths_witness :
  is_int64 5
  /\ is_int64 (2 ^ 40)
  /\ @JS_VALUE_IS_BOTH_INT nan_boxing (JS_NewInt64 0 5) (JS_NewInt64 0 (2 ^ 40))
     = false.
Proof.
  assert (H1 : is_int64 5) by (unfold is_int64, INT64_MIN, INT64_MAX; lia).
  assert (H2 : is_int64 (2 ^ 40))
    by (unfold is_int64, INT64_MIN, INT64_MAX; lia).
  refine (conj H1 (conj H2 _)).
  destruct (@JS_VALUE_IS_BOTH_INT nan_boxing
              (JS_NewInt64 0 5) (JS_NewInt64 0 (2 ^ 40))) eqn:E;
    [|reflexivity].
  apply (proj1 (proj1 (new_int64_fast_paths 0 5 (2 ^ 40) H1 H2))) in E.
  exfalso. unfold INT32_MIN, INT32_MAX in E. lia.
Defined.
